(** * Recommendation and study-decision engine

    A shallow embedding of
    [backend/app/services/recommendation_service.py] and
    [backend/app/services/study_decision_service.py].

    Conventions of the embedding.
    - Python [float] values that hold ratings, averages and scores are
      exact rationals ([Q]); the results of [math.sqrt] and everything
      computed from them are real numbers ([R]).  Rounding error of the
      binary floating-point format is not part of the model.
    - The MongoDB collections [user_ratings] and [resources] are lists of
      records in natural (insertion) order; [MongoDB.get_db()] is an
      [option DB], [None] when the client is not connected.
    - [datetime.utcnow()] and [datetime.now()] are an explicit argument
      [now], in microseconds.
    - A Python [dict] used as a map is a [gmap]; a [set] is a [gset]. *)

From Stdlib Require Import ZArith QArith Qround Qabs Reals Qreals Lra Lia Lqa.
From Stdlib Require Import String Ascii List DecimalString.
From stdpp Require Import base gmap sets list strings sorting.

Open Scope Q_scope.

(** ** Numeric helpers *)

Definition Qltb (a b : Q) : bool := negb (Qle_bool b a).

Definition sumQ (l : list Q) : Q := foldr Qplus 0 l.

(** [$avg] of a non-empty group: the sum divided by the number of rows. *)
Definition mean (l : list Q) : Q := sumQ l / inject_Z (Z.of_nat (length l)).

(** Round to the nearest integer, ties to the even neighbour: the rule of
    Python's [round]. *)
Definition round_half_even (q : Q) : Z :=
  let f := Qfloor q in
  match Qcompare (q - inject_Z f) (1 # 2) with
  | Lt => f
  | Gt => (f + 1)%Z
  | Eq => if Z.even f then f else (f + 1)%Z
  end.

(** [round(x, 1)] on the exact value.  Python rounds the binary64
    value of [x], so a mean that lies exactly between two tenths (4.35)
    can go to either neighbour; what is stated of a stored average
    below is that it is a tenth at most 1/20 away from the mean. *)
Definition round1 (q : Q) : Q := inject_Z (round_half_even (q * 10)) / 10.

(** Python truthiness of an optional string ([if module_id:]). *)
Definition truthy (o : option string) : bool :=
  match o with
  | Some s => negb (String.eqb s "")
  | None => false
  end.

(** Stable sort in descending order ([sort(key=..., reverse=True)] and
    [$sort: -1]): [geb x y] holds when the key of [x] is at least the
    key of [y]; elements with equal keys keep their order. *)
Fixpoint insert_desc {A} (geb : A → A → bool) (x : A) (l : list A) : list A :=
  match l with
  | [] => [x]
  | y :: l' => if geb x y then x :: l else y :: insert_desc geb x l'
  end.

Definition sort_desc {A} (geb : A → A → bool) (l : list A) : list A :=
  foldr (insert_desc geb) [] l.

(** The slice [l[:limit]] for an [int] limit: a negative limit counts
    from the end. *)
Definition py_slice {A} (limit : Z) (l : list A) : list A :=
  if (0 <=? limit)%Z then take (Z.to_nat limit) l
  else take (length l - Z.to_nat (- limit)) l.

(** ** The document store *)

Record Rating := mkRating {
  user_id : string;
  resource_id : string;
  rating_module_id : option string;
  rating : Q;
  updated_at : Z;
  created_at : Z
}.

Record Resource := mkResource {
  res_id : string;
  title : option string;
  type : option string;
  url : option string;
  description : option string;
  thumbnail : option string;
  res_module_id : option string;
  tags : option (list string);
  average_rating : option Q;
  rating_count : option nat
}.

Record DB := mkDB {
  user_ratings : list Rating;
  resources : list Resource
}.

Module Store.

(** The filter [{"user_id": user_id, "resource_id": resource_id}]. *)
Definition same_key (uid rid : string) (r : Rating) : Prop :=
  user_id r = uid ∧ resource_id r = rid.

#[global] Instance same_key_dec uid rid r : Decision (same_key uid rid r).
Proof. unfold same_key. apply _. Defined.

(** [update_one(filter, {"$set": rating_doc, "$setOnInsert": {created_at}},
    upsert=True)]: the first matching row gets the fields of [rating_doc]
    and keeps its [created_at]; with no match a new row is appended. *)
Fixpoint upsert_rating (now : Z) (uid rid : string) (mid : option string)
    (x : Q) (l : list Rating) : list Rating :=
  match l with
  | [] => [mkRating uid rid mid x now now]
  | r :: l' =>
      if decide (same_key uid rid r)
      then mkRating uid rid mid x now (created_at r) :: l'
      else r :: upsert_rating now uid rid mid x l'
  end.

(** The [$match] stage of [_update_resource_average]: the ratings of the
    rows whose [resource_id] is [rid]. *)
Definition ratings_of (rid : string) (l : list Rating) : list Q :=
  rating <$> filter (λ r, resource_id r = rid) l.

(** [db.resources.update_one({"id": rid}, {"$set": {...}})]: only the
    first matching document is changed; without a match nothing is. *)
Fixpoint set_aggregates (rid : string) (avg : Q) (cnt : nat)
    (l : list Resource) : list Resource :=
  match l with
  | [] => []
  | r :: l' =>
      if decide (res_id r = rid)
      then mkResource (res_id r) (title r) (type r) (url r) (description r)
             (thumbnail r) (res_module_id r) (tags r) (Some avg) (Some cnt) :: l'
      else r :: set_aggregates rid avg cnt l'
  end.

(** [db.resources.find_one({"id": rid})] *)
Definition find_one (rid : string) (l : list Resource) : option Resource :=
  head (filter (λ r, res_id r = rid) l).

Definition _update_resource_average (d : DB) (rid : string) : DB :=
  match ratings_of rid (user_ratings d) with
  | [] => d
  | q :: qs =>
      mkDB (user_ratings d)
           (set_aggregates rid (round1 (mean (q :: qs))) (length (q :: qs))
              (resources d))
  end.

Inductive RateResult :=
| RateError (msg : string)
| RateSuccess (x : Q).

Definition rate_resource (db : option DB) (now : Z) (uid rid : string)
    (x : Q) (mid : option string) : RateResult * option DB :=
  match db with
  | None => (RateError "Database not connected", None)
  | Some d =>
      if Qltb x 1 || Qltb 5 x
      then (RateError "Rating must be between 1 and 5", Some d)
      else
        let d1 := mkDB (upsert_rating now uid rid mid x (user_ratings d))
                       (resources d) in
        (RateSuccess x, Some (_update_resource_average d1 rid))
  end.

(** [get_user_rating] *)
Definition get_user_rating (db : option DB) (uid rid : string) : option Q :=
  match db with
  | None => None
  | Some d => rating <$> head (filter (same_key uid rid) (user_ratings d))
  end.

(** The rows of [get_user_ratings]: (resource_id, rating, module_id). *)
Definition get_user_ratings (db : option DB) (uid : string)
    : list (string * Q * option string) :=
  match db with
  | None => []
  | Some d =>
      (λ r, (resource_id r, rating r, rating_module_id r))
        <$> filter (λ r, user_id r = uid) (user_ratings d)
  end.

(** The unique index on [(user_id, resource_id)] that [seed_database.py]
    creates on [user_ratings]. *)
Definition key_of (r : Rating) : string * string :=
  (user_id r, resource_id r).

Definition unique_keys (l : list Rating) : Prop := NoDup (key_of <$> l).

(** A later call of [rate_resource], as data. *)
Record RateCall := mkCall {
  c_now : Z; c_user : string; c_resource : string; c_rating : Q;
  c_module : option string
}.

Definition run_call (db : option DB) (c : RateCall) : option DB :=
  snd (rate_resource db (c_now c) (c_user c) (c_resource c) (c_rating c)
         (c_module c)).

Definition run_calls (db : option DB) (cs : list RateCall) : option DB :=
  foldl run_call db cs.

End Store.

(** ** Cosine similarity of two rating maps *)

Module Similarity.

(** [ratings[item]]; every item of [common_items] is a key of both maps. *)
Definition rating_at (ratings : gmap string Q) (item : string) : Q :=
  default 0 (ratings !! item).

(** [set(ratings1.keys()) & set(ratings2.keys())] *)
Definition common_items (ratings1 ratings2 : gmap string Q) : gset string :=
  dom ratings1 ∩ dom ratings2.

Definition dot_product (ratings1 ratings2 : gmap string Q) : Q :=
  sumQ ((λ item, rating_at ratings1 item * rating_at ratings2 item)
          <$> elements (common_items ratings1 ratings2)).

(** [sum(ratings[item] ** 2 for item in common_items)] *)
Definition sum_squares (ratings : gmap string Q) (common : gset string) : Q :=
  sumQ ((λ item, rating_at ratings item ^ 2) <$> elements common).

Definition _cosine_similarity (ratings1 ratings2 : gmap string Q) : R :=
  let common := common_items ratings1 ratings2 in
  if decide (size common < 2)%nat then 0%R
  else
    let mag1 := sqrt (Q2R (sum_squares ratings1 common)) in
    let mag2 := sqrt (Q2R (sum_squares ratings2 common)) in
    if Req_dec_T mag1 0 then 0%R
    else if Req_dec_T mag2 0 then 0%R
    else (Q2R (dot_product ratings1 ratings2) / (mag1 * mag2))%R.

End Similarity.

(** ** Trending resources and the hybrid recommender *)

Module Recommender.
Import Store Similarity.

(** The dictionaries the recommender returns.  [recommendation_score],
    [recommendation_type] and [tags] are keys that only some of the
    sources set. *)
Record Rec := mkRec {
  rec_id : string;
  rec_title : option string;
  rec_type : option string;
  rec_url : option string;
  rec_description : option string;
  rec_thumbnail : option string;
  rec_average_rating : Q;
  rec_rating_count : nat;
  rec_tags : option (list string);
  recommendation_score : option R;
  recommendation_type : option string
}.

(** [timedelta(days=7)] in microseconds. *)
Definition week : Z := 7 * 86400 * 1000000.

(** One output row of the [$group] stage of the trending pipeline. *)
Record TrendGroup := mkGroup {
  g_id : string;
  recent_ratings : nat;
  avg_rating : Q
}.

(** [{"$match": {"updated_at": {"$gte": week_ago}}}] *)
Definition recent_rows (now : Z) (l : list Rating) : list Rating :=
  filter (λ r, (now - week ≤ updated_at r)%Z) l.

(** [$group] by [resource_id] with [$sum: 1] and [$avg: "$rating"]; the
    store leaves the order of the groups open, here one group per id in
    the order of [remove_dups]. *)
Definition trending_groups (now : Z) (l : list Rating) : list TrendGroup :=
  let recent := recent_rows now l in
  (λ rid, mkGroup rid (length (ratings_of rid recent))
                      (mean (ratings_of rid recent)))
    <$> remove_dups (resource_id <$> recent).

(** [{"$sort": {"recent_ratings": -1, "avg_rating": -1}}] *)
Definition trend_geb (a b : TrendGroup) : bool :=
  (recent_ratings b <? recent_ratings a)%nat
  || ((recent_ratings a =? recent_ratings b)%nat
      && Qle_bool (avg_rating b) (avg_rating a)).

(** The aggregation pipeline of [get_trending_resources], whose
    [$limit] stage only accepts a positive count. *)
Definition trending_ids (now : Z) (limit : positive) (l : list Rating)
    : list string :=
  g_id <$> take (2 * Pos.to_nat limit)
             (sort_desc trend_geb
                (filter (λ g, Qle_bool (35 # 10) (avg_rating g) = true)
                   (trending_groups now l))).

Definition trending_dict (r : Resource) : Rec :=
  mkRec (res_id r) (title r) (type r) (url r) (description r) (thumbnail r)
        (default 0 (average_rating r)) (default 0%nat (rating_count r))
        (Some (default [] (tags r))) None None.

(** The query [{"id": {"$in": trending_ids}}], with [module_id] added
    when it is truthy. *)
Definition trending_query (ids : list string) (mid : option string)
    (r : Resource) : Prop :=
  res_id r ∈ ids ∧ (truthy mid = true → res_module_id r = mid).

#[global] Instance trending_query_dec ids mid r :
  Decision (trending_query ids mid r).
Proof. unfold trending_query. apply _. Defined.

Definition get_trending_resources (db : option DB) (now : Z)
    (mid : option string) (limit : positive) : list Rec :=
  match db with
  | None => []
  | Some d =>
      let ids := trending_ids now limit (user_ratings d) in
      trending_dict
        <$> take (Pos.to_nat limit)
              (filter (trending_query ids mid) (resources d))
  end.

(** *** Collaborative filtering *)

Record SimilarUser := mkSimilar {
  su_user_id : string;
  similarity : R;
  su_ratings : gmap string Q
}.

(** [{r["resource_id"]: r["rating"] for r in rows}]: a later row of the
    same resource overwrites an earlier one. *)
Definition rating_map (rows : list (string * Q)) : gmap string Q :=
  foldl (λ m p, <[p.1 := p.2]> m) ∅ rows.

(** The [$group] by [user_id] with [$push] of the other users' rows. *)
Definition pushed_ratings (uid' : string) (l : list Rating)
    : list (string * Q) :=
  (λ r, (resource_id r, rating r)) <$> filter (λ r, user_id r = uid') l.

#[global] Instance Rlt_decision (x y : R) : Decision (x < y)%R := Rlt_dec x y.
#[global] Instance Rle_decision (x y : R) : Decision (x <= y)%R := Rle_dec x y.

Definition similarity_geb (a b : SimilarUser) : bool :=
  bool_decide (similarity b <= similarity a)%R.

Definition _find_similar_users (d : DB) (uid : string)
    (user_ratings_rows : list (string * Q * option string))
    : list SimilarUser :=
  let user_rating_map := rating_map (fst <$> user_ratings_rows) in
  let others := filter (λ r, user_id r ≠ uid) (user_ratings d) in
  let candidates :=
    (λ other,
       let other_rating_map := rating_map (pushed_ratings other others) in
       mkSimilar other (_cosine_similarity user_rating_map other_rating_map)
                 other_rating_map)
      <$> remove_dups (user_id <$> others) in
  take 10 (sort_desc similarity_geb
             (filter (λ su, (3 / 10 < similarity su)%R) candidates)).

(** [resource_scores[resource_id]["score"] += w] and
    [["count"] += 1] on the [defaultdict], which keeps its keys in the
    order of first insertion. *)
Fixpoint bump (rid : string) (w : R) (scores : list (string * (R * nat)))
    : list (string * (R * nat)) :=
  match scores with
  | [] => [(rid, ((0 + w)%R, (0 + 1)%nat))]
  | (k, (s, c)) :: rest =>
      if decide (k = rid) then (k, ((s + w)%R, (c + 1)%nat)) :: rest
      else (k, (s, c)) :: bump rid w rest
  end.

(** The inner loop over [user["ratings"].items()].  The map is walked in
    the order of [map_to_list]; the order only decides the position of a
    key that is inserted for the first time. *)
Definition accumulate_user (rated : gset string)
    (scores : list (string * (R * nat))) (user : SimilarUser)
    : list (string * (R * nat)) :=
  foldl (λ acc p,
           if bool_decide (p.1 ∉ rated) && Qle_bool 4 p.2
           then bump p.1 (Q2R p.2 * similarity user)%R acc
           else acc)
        scores (map_to_list (su_ratings user)).

Definition collaborative_dict (r : Resource) (avg_score : R) : Rec :=
  mkRec (res_id r) (title r) (type r) (url r) (description r) (thumbnail r)
        (default 0 (average_rating r)) (default 0%nat (rating_count r))
        None (Some avg_score) (Some "collaborative"%string).

Definition _get_collaborative_recommendations (d : DB)
    (similar_users : list SimilarUser) (rated : gset string)
    (mid : option string) : list Rec :=
  let resource_scores := foldl (accumulate_user rated) [] similar_users in
  omap (λ entry : string * (R * nat),
          let '(rid, (score, count)) := entry in
          let avg_score :=
            if (0 <? count)%nat then (score / INR count)%R else 0%R in
          match find_one rid (resources d) with
          | None => None
          | Some r =>
              if truthy mid && negb (bool_decide (res_module_id r = mid))
              then None
              else Some (collaborative_dict r avg_score)
          end)
       resource_scores.

(** *** Content-based recommendations *)

(** [.sort("average_rating", -1)]: a document without the field sorts
    after every document that has it. *)
Definition average_geb (a b : Resource) : bool :=
  match average_rating a, average_rating b with
  | _, None => true
  | None, Some _ => false
  | Some x, Some y => Qle_bool y x
  end.

Definition content_dict (r : Resource) : Rec :=
  mkRec (res_id r) (title r) (type r) (url r) (description r) (thumbnail r)
        (default 0 (average_rating r)) (default 0%nat (rating_count r))
        None (Some (Q2R (default 0 (average_rating r) * (8 # 10))))
        (Some "content"%string).

Definition _get_content_based_recommendations (d : DB)
    (mid : option string) (rated : gset string) : list Rec :=
  content_dict
    <$> take 10
          (sort_desc average_geb
             (filter (λ r, res_module_id r = mid ∧ res_id r ∉ rated)
                (resources d))).

(** *** The hybrid recommender *)

(** [resource["recommendation_type"] = "trending"] *)
Definition mark_trending (r : Rec) : Rec :=
  mkRec (rec_id r) (rec_title r) (rec_type r) (rec_url r) (rec_description r)
        (rec_thumbnail r) (rec_average_rating r) (rec_rating_count r)
        (rec_tags r) (recommendation_score r) (Some "trending"%string).

(** The loop that keeps the first entry of every id. *)
Fixpoint dedupe (seen : gset string) (l : list Rec) : list Rec :=
  match l with
  | [] => []
  | r :: l' =>
      if decide (rec_id r ∈ seen) then dedupe seen l'
      else r :: dedupe ({[rec_id r]} ∪ seen) l'
  end.

(** [x.get("recommendation_score", 0)] *)
Definition score_key (r : Rec) : R := default 0%R (recommendation_score r).

Definition score_geb (a b : Rec) : bool :=
  bool_decide (score_key b <= score_key a)%R.

Definition get_recommendations_for_user (db : option DB) (now : Z)
    (uid : string) (mid : option string) (limit : Z) : list Rec :=
  match db with
  | None => []
  | Some d =>
      let user_ratings_rows := get_user_ratings db uid in
      let rated_resource_ids : gset string :=
        list_to_set ((λ row, row.1.1) <$> user_ratings_rows) in
      let cf_recommendations :=
        if (3 <=? length user_ratings_rows)%nat
        then _get_collaborative_recommendations d
               (_find_similar_users d uid user_ratings_rows)
               rated_resource_ids mid
        else [] in
      let content_recommendations :=
        if truthy mid
        then _get_content_based_recommendations d mid rated_resource_ids
        else [] in
      let trending :=
        mark_trending
          <$> filter (λ r, rec_id r ∉ rated_resource_ids)
                (get_trending_resources db now mid 5) in
      let recommendations :=
        cf_recommendations ++ content_recommendations ++ trending in
      py_slice limit (sort_desc score_geb (dedupe ∅ recommendations))
  end.

End Recommender.

(** ** The study-priority scorer *)

Module Scorer.

Record ModuleInput := mkModule {
  id : string;
  name : string;
  difficulty : Z;
  examDate : option string;
  progress : option Z
}.

Record StudyDecisionRequest := mkRequest {
  mood : string;
  energyLevel : Z;
  timeAvailable : Z;
  modules : list ModuleInput
}.

(** The [recommendedModule] dictionary of the response. *)
Record RecommendedModule := mkRecommended {
  rm_id : string;
  rm_name : string;
  rm_reason : string
}.

Record StudyDecisionResponse := mkResponse {
  recommendedModule : RecommendedModule;
  recommendedActivity : string;
  suggestedDuration : Z;
  explanation : string;
  confidence : Q
}.

(** A [datetime]: microseconds on its own clock and, for an aware value,
    the offset of that clock from UTC. *)
Record datetime := mkDatetime {
  instant : Z;
  utcoffset : option Z
}.

Inductive exn := IndexError.

Inductive outcome (A : Type) :=
| Returns (a : A)
| Raises (e : exn).
Arguments Returns {A} a.
Arguments Raises {A} e.

Definition day_us : Z := 86400 * 1000000.

(** [a - b] on datetimes: a [timedelta] in microseconds, or [None] for
    the [TypeError] of mixing a naive with an aware value. *)
Definition datetime_sub (a b : datetime) : option Z :=
  match utcoffset a, utcoffset b with
  | None, None => Some (instant a - instant b)%Z
  | Some oa, Some ob => Some ((instant a - oa) - (instant b - ob))%Z
  | _, _ => None
  end.

(** [timedelta.days] *)
Definition days (delta : Z) : Z := (delta / day_us)%Z.

(** [datetime.now()]: a naive value. *)
Definition naive (now : Z) : datetime := mkDatetime now None.

(** [s.replace("Z", "+00:00")] *)
Fixpoint replace_Z (s : string) : string :=
  match s with
  | EmptyString => EmptyString
  | String c s' =>
      if Ascii.eqb c "Z" then ("+00:00" ++ replace_Z s')%string
      else String c (replace_Z s')
  end.

(** Truncation towards zero, [int(x)]. *)
Definition Qtrunc (q : Q) : Z := Z.quot (Qnum q) (Zpos (Qden q)).

Definition string_of_Z (z : Z) : string := NilZero.string_of_int (Z.to_int z).

Section Service.

(** [datetime.fromisoformat]; [None] stands for its [ValueError]. *)
Variable fromisoformat : string → option datetime.

(** [_generate_explanation]: the reply of [LLMService.chat_completion],
    which answers with a string on every path (a provider error falls
    back to a fixed reply). *)
Variable _generate_explanation :
  ModuleInput → string → Z → StudyDecisionRequest → Q → string.

(** The body of the [try] block shared by the scorer and the reason:
    the number of days until the exam, or [None] when the block raised
    and [except: pass] swallowed it. *)
Definition days_until_exam (now : Z) (exam : string) : option Z :=
  match fromisoformat (replace_Z exam) with
  | None => None
  | Some exam_date => days <$> datetime_sub exam_date (naive now)
  end.

Definition mood_multiplier (m : string) : Q :=
  if String.eqb m "low" then 7 # 10
  else if String.eqb m "medium" then 1
  else if String.eqb m "high" then 13 # 10
  else 1.

Definition _calculate_module_score (now : Z) (module : ModuleInput)
    (request : StudyDecisionRequest) : Q :=
  let score := 0 in
  let difficulty_weight :=
    if (7 <=? energyLevel request)%Z then 3 # 2
    else if (energyLevel request <=? 4)%Z then 1 # 2
    else 1 in
  let score := score + inject_Z (difficulty module) * difficulty_weight * 10 in
  let score :=
    if truthy (examDate module) then
      match days_until_exam now (default ""%string (examDate module)) with
      | Some d =>
          if (0 <? d)%Z then score + 100 / (1 + inject_Z d / 7) else score
      | None => score
      end
    else score in
  let score :=
    match progress module with
    | Some p => score + inject_Z (100 - p) * (1 # 2)
    | None => score
    end in
  let score := score * mood_multiplier (mood request) in
  let score := score * (inject_Z (energyLevel request) / 10) in
  score.

Definition _determine_activity (mood : string) (energy_level : Z)
    (time_available : Z) : string :=
  if (energy_level <=? 4)%Z || (time_available <=? 30)%Z then "flashcards"
  else if (7 <=? energy_level)%Z && (90 <=? time_available)%Z then "practice"
  else if (60 <=? time_available)%Z then "revise"
  else "summary".

Definition activity_multiplier (activity : string) : Q :=
  if String.eqb activity "flashcards" then 8 # 10
  else if String.eqb activity "summary" then 9 # 10
  else if String.eqb activity "revise" then 1
  else if String.eqb activity "practice" then 11 # 10
  else 1.

Definition _calculate_duration (time_available energy_level : Z)
    (activity : string) : Z :=
  let base_duration := Z.min time_available 120 in
  let base_duration :=
    if (energy_level <=? 4)%Z then Qtrunc (inject_Z base_duration * (7 # 10))
    else if (8 <=? energy_level)%Z
         then Qtrunc (inject_Z base_duration * (11 # 10))
         else base_duration in
  let duration :=
    Qtrunc (inject_Z base_duration * activity_multiplier activity) in
  Z.max 15 ((duration / 5) * 5)%Z.

(** The list [reasons] of [_get_reason], before it is joined. *)
Definition reasons (now : Z) (module : ModuleInput) : list string :=
  let exam :=
    if truthy (examDate module) then
      match days_until_exam now (default ""%string (examDate module)) with
      | Some d =>
          if (0 <? d)%Z && (d <=? 14)%Z
          then [("Exam in " ++ string_of_Z d ++ " days")%string]
          else []
      | None => []
      end
    else [] in
  let low :=
    match progress module with
    | Some p => if (p <? 50)%Z then ["Low progress"%string] else []
    | None => []
    end in
  let high :=
    if (7 <=? difficulty module)%Z then ["High difficulty"%string] else [] in
  let reasons := exam ++ low ++ high in
  match reasons with
  | [] => ["Good time to review"%string]
  | _ => reasons
  end.

Definition _get_reason (now : Z) (module : ModuleInput)
    (request : StudyDecisionRequest) : string :=
  String.concat "; " (reasons now module).

Definition _calculate_confidence (module_scores : list (ModuleInput * Q)) : Q :=
  match module_scores with
  | (_, top_score) :: (_, second_score) :: _ =>
      if Qeq_bool top_score 0 then 5 # 10
      else
        let score_ratio := (top_score - second_score) / top_score in
        let c := (6 # 10) + score_ratio * (35 # 100) in
        if Qltb c (95 # 100) then c else 95 # 100
  | _ => 8 # 10
  end.

Definition get_recommendation (now : Z) (request : StudyDecisionRequest)
    : outcome StudyDecisionResponse :=
  let module_scores :=
    (λ module, (module, _calculate_module_score now module request))
      <$> modules request in
  let module_scores :=
    sort_desc (λ a b, Qle_bool (snd b) (snd a)) module_scores in
  match module_scores with
  | [] => Raises IndexError
  | top_module_data :: _ =>
      let recommended_module := fst top_module_data in
      let recommended_activity :=
        _determine_activity (mood request) (energyLevel request)
          (timeAvailable request) in
      let suggested_duration :=
        _calculate_duration (timeAvailable request) (energyLevel request)
          recommended_activity in
      let explanation :=
        _generate_explanation recommended_module recommended_activity
          suggested_duration request (snd top_module_data) in
      let confidence := _calculate_confidence module_scores in
      Returns
        (mkResponse
           (mkRecommended (id recommended_module) (name recommended_module)
              (_get_reason now recommended_module request))
           recommended_activity suggested_duration explanation confidence)
  end.

End Service.

(** The module without its [examDate]. *)
Definition without_exam (m : ModuleInput) : ModuleInput :=
  mkModule (id m) (name m) (difficulty m) None (progress m).

(** *** A reader for ISO dates

    An instance of [fromisoformat] for the forms [YYYY-MM-DD] and
    [YYYY-MM-DD?HH:MM[:SS][+HH:MM]] ([?] any one character), used to run
    the scorer on concrete requests. *)

Definition digit_val (c : ascii) : option Z :=
  let n := Z.of_nat (nat_of_ascii c) in
  if (48 <=? n)%Z && (n <=? 57)%Z then Some (n - 48)%Z else None.

Fixpoint read_digits (n : nat) (acc : Z) (s : string) : option (Z * string) :=
  match n with
  | O => Some (acc, s)
  | S n' =>
      match s with
      | String c s' =>
          match digit_val c with
          | Some d => read_digits n' (acc * 10 + d)%Z s'
          | None => None
          end
      | EmptyString => None
      end
  end.

Definition expect (c : ascii) (s : string) : option string :=
  match s with
  | String c' s' => if Ascii.eqb c c' then Some s' else None
  | EmptyString => None
  end.

Definition is_leap (y : Z) : bool :=
  ((y mod 4 =? 0) && negb (y mod 100 =? 0) || (y mod 400 =? 0))%Z.

Definition days_in_month (y m : Z) : Z :=
  if (m =? 2)%Z then (if is_leap y then 29 else 28)%Z
  else if ((m =? 4) || (m =? 6) || (m =? 9) || (m =? 11))%Z then 30%Z
  else 31%Z.

(** Days from 1970-01-01 to the given civil date. *)
Definition days_from_civil (y m d : Z) : Z :=
  let y' := (if m <=? 2 then y - 1 else y)%Z in
  let era := (y' / 400)%Z in
  let yoe := (y' - era * 400)%Z in
  let mp := ((m + 9) mod 12)%Z in
  let doy := ((153 * mp + 2) / 5 + d - 1)%Z in
  let doe := (yoe * 365 + yoe / 4 - yoe / 100 + doy)%Z in
  (era * 146097 + doe - 719468)%Z.

Definition parse_date (s : string) : option (Z * string) :=
  '(y, s) ← read_digits 4 0%Z s;
  s ← expect "-" s;
  '(m, s) ← read_digits 2 0%Z s;
  s ← expect "-" s;
  '(d, s) ← read_digits 2 0%Z s;
  if ((1 <=? y) && (1 <=? m) && (m <=? 12) && (1 <=? d)
      && (d <=? days_in_month y m))%Z
  then Some (days_from_civil y m d, s) else None.

Definition parse_time (s : string) : option (Z * string) :=
  '(h, s) ← read_digits 2 0%Z s;
  s ← expect ":" s;
  '(mi, s) ← read_digits 2 0%Z s;
  '(sec, s) ← match expect ":" s with
              | Some s' => read_digits 2 0%Z s'
              | None => Some (0%Z, s)
              end;
  if ((h <? 24) && (mi <? 60) && (sec <? 60))%Z
  then Some ((((h * 60 + mi) * 60 + sec) * 1000000)%Z, s) else None.

Definition parse_offset (s : string) : option (option Z) :=
  match s with
  | EmptyString => Some None
  | String c s' =>
      sign ← (if Ascii.eqb c "+" then Some 1%Z
              else if Ascii.eqb c "-" then Some (-1)%Z else None);
      '(h, s) ← read_digits 2 0%Z s';
      s ← expect ":" s;
      '(mi, s) ← read_digits 2 0%Z s;
      match s with
      | EmptyString =>
          if ((h <? 24) && (mi <? 60))%Z
          then Some (Some (sign * ((h * 60 + mi) * 60 * 1000000))%Z)
          else None
      | _ => None
      end
  end.

Definition iso_parse (s : string) : option datetime :=
  '(d, s) ← parse_date s;
  match s with
  | EmptyString => Some (mkDatetime (d * day_us) None)
  | String _ s' =>
      '(t, s) ← parse_time s';
      off ← parse_offset s;
      Some (mkDatetime (d * day_us + t) off)
  end.

(** A stand-in for the text-generation collaborator. *)
Definition fixed_explanation (_ : ModuleInput) (_ : string) (_ : Z)
    (_ : StudyDecisionRequest) (_ : Q) : string :=
  "Keep going."%string.

End Scorer.

(** ** Concrete stores and requests *)

Module Samples.
Import Store.

Definition algebra_video : Resource :=
  mkResource "res1" (Some "Algebra basics"%string) (Some "video"%string)
    (Some "https://example.org/algebra"%string) None None
    (Some "math"%string) None None None.

(** Two users rated [res1] with 4 stars. *)
Definition two_fours : DB :=
  mkDB [mkRating "u1" "res1" (Some "math"%string) 4 100 100;
        mkRating "u2" "res1" (Some "math"%string) 4 200 200]
       [algebra_video].

(** The same store after a third user rated [res1] with 5 stars at
    time 300. *)
Definition rated_video : Resource :=
  mkResource "res1" (Some "Algebra basics"%string) (Some "video"%string)
    (Some "https://example.org/algebra"%string) None None
    (Some "math"%string) None (Some (43 # 10)) (Some 3%nat).

Definition three_ratings : DB :=
  mkDB [mkRating "u1" "res1" (Some "math"%string) 4 100 100;
        mkRating "u2" "res1" (Some "math"%string) 4 200 200;
        mkRating "u3" "res1" None 5 300 300]
       [rated_video].

(** Two resources in natural order [resA], [resB]; within the last week
    [resB] got two ratings of 5 and [resA] one rating of 4. *)
Definition resource_a : Resource :=
  mkResource "resA" (Some "Limits"%string) (Some "video"%string)
    (Some "https://example.org/limits"%string) None None
    (Some "math"%string) None (Some 4) (Some 1%nat).

Definition resource_b : Resource :=
  mkResource "resB" (Some "Series"%string) (Some "pdf"%string)
    (Some "https://example.org/series"%string) None None
    (Some "math"%string) None (Some 5) (Some 2%nat).

Definition busy_store : DB :=
  mkDB [mkRating "u1" "resB" None 5 1000 1000;
        mkRating "u2" "resB" None 5 2000 2000;
        mkRating "u3" "resA" None 4 3000 3000]
       [resource_a; resource_b].

(** Three resources with stored aggregates; [resource_a] and
    [resource_b] have fewer than 3 ratings. *)
Definition resource_c : Resource :=
  mkResource "resC" (Some "Integrals"%string) (Some "video"%string)
    (Some "https://example.org/integrals"%string) None None
    (Some "math"%string) None (Some (45 # 10)) (Some 4%nat).

Definition resource_d : Resource :=
  mkResource "resD" (Some "Vectors"%string) (Some "video"%string)
    (Some "https://example.org/vectors"%string) None None
    (Some "math"%string) None (Some (48 # 10)) (Some 7%nat).

Definition shelf : DB :=
  mkDB [] [resource_a; resource_c; resource_b; resource_d].

(** Rating maps of three users: the first two share only [res1], which
    both rated 5. *)
Definition ratings_u1 : gmap string Q :=
  <["res1"%string := 5]> (<["res2"%string := 3]> ∅).

Definition ratings_u2 : gmap string Q :=
  <["res1"%string := 5]> (<["res3"%string := 1]> ∅).

(** The third shares [res1] and [res2] with the first. *)
Definition ratings_u3 : gmap string Q :=
  <["res1"%string := 4]> (<["res2"%string := 5]> ∅).

(** Requests of the scorer.  [new_year] is 2025-01-01T00:00:00 on the
    local clock. *)
Definition new_year : Z := 1735689600000000.

Definition exam_at_noon : Scorer.ModuleInput :=
  Scorer.mkModule "1" "Math" 8 (Some "2025-01-01T12:00:00"%string) (Some 50%Z).

Definition exam_utc : Scorer.ModuleInput :=
  Scorer.mkModule "2" "Physics" 8 (Some "2025-01-15T00:00:00Z"%string)
    (Some 50%Z).

Definition exam_garbled : Scorer.ModuleInput :=
  Scorer.mkModule "3" "Chemistry" 8 (Some "not-a-date"%string) (Some 50%Z).

Definition evening (ms : list Scorer.ModuleInput)
    : Scorer.StudyDecisionRequest :=
  Scorer.mkRequest "high" 7 90 ms.

End Samples.

(** ** Properties in the words of the specification *)

Module Stated.
Import Store.

(** The arithmetic mean of a list of ratings: their sum divided by
    their number. *)
Definition arithmetic_mean (l : list Q) : Q :=
  foldr Qplus 0 l / inject_Z (Z.of_nat (length l)).

(** "All current ratings for that resource_id": the values of the rows
    of the resource. *)
Definition current_ratings (rid : string) (rows : list Rating) : list Q :=
  rating <$> filter (λ r, resource_id r = rid) rows.

(** "After every successful rating write the stored [average_rating]
    equals the exact arithmetic mean of all current ratings of the
    resource, and [rating_count] equals their count", for one call. *)
Definition average_is_exact_mean (d : DB) (now : Z) (uid rid : string)
    (x : Q) (mid : option string) : Prop :=
  ∀ d' res,
    rate_resource (Some d) now uid rid x mid = (RateSuccess x, Some d') →
    find_one rid (resources d') = Some res →
    (∃ q, average_rating res = Some q
          ∧ q == mean (ratings_of rid (user_ratings d')))
    ∧ rating_count res = Some (length (ratings_of rid (user_ratings d'))).

(** The score of the specification for a module whose exam lies
    [days_until] days ahead: the difficulty term, the proximity bonus
    [100 / (1 + days_until / 7)] and the progress term, scaled by mood
    and energy. *)
Definition score_with_bonus (m : Scorer.ModuleInput)
    (request : Scorer.StudyDecisionRequest) (days_until : Z) : Q :=
  let difficulty_weight :=
    if (7 <=? Scorer.energyLevel request)%Z then 3 # 2
    else if (Scorer.energyLevel request <=? 4)%Z then 1 # 2 else 1 in
  let score := inject_Z (Scorer.difficulty m) * difficulty_weight * 10 in
  let score := score + 100 / (1 + inject_Z days_until / 7) in
  let score :=
    match Scorer.progress m with
    | Some p => score + inject_Z (100 - p) * (1 # 2)
    | None => score
    end in
  score * Scorer.mood_multiplier (Scorer.mood request)
        * (inject_Z (Scorer.energyLevel request) / 10).

End Stated.

(** ** Top rated resources *)

Module TopRated.
Import Recommender.

(** [cursor.limit(n)]: a limit of 0 is no limit, and a negative limit
    returns as many documents as its absolute value. *)
Definition cursor_limit {A} (n : Z) (l : list A) : list A :=
  if (n =? 0)%Z then l else take (Z.to_nat (Z.abs n)) l.

(** The query [{"rating_count": {"$gte": 3}}], with [module_id] added
    when it is truthy; a document without [rating_count] does not
    match. *)
Definition top_rated_query (mid : option string) (r : Resource) : Prop :=
  match rating_count r with
  | Some c => (3 ≤ c)%nat
  | None => False
  end
  ∧ (truthy mid = true → res_module_id r = mid).

#[global] Instance top_rated_query_dec mid r : Decision (top_rated_query mid r).
Proof. unfold top_rated_query. destruct (rating_count r); apply _. Defined.

(** The order of the store on an optional number: a missing field is
    below every number. *)
Definition opt_ltb {A} (ltb : A → A → bool) (a b : option A) : bool :=
  match a, b with
  | None, Some _ => true
  | Some x, Some y => ltb x y
  | _, None => false
  end.

(** The order facts about a strict comparison of sort keys that make
    the two-key comparison below total and transitive. *)
Record StrictKey {A} (ltb : A → A → bool) : Prop := {
  key_asym : ∀ x y, ltb x y = true → ltb y x = false;
  key_trans : ∀ x y z, ltb x y = true → ltb y z = true → ltb x z = true;
  key_below : ∀ x y z, ltb y z = false → ltb y x = true → ltb z x = true;
  key_above : ∀ x y z, ltb x y = false → ltb z y = true → ltb z x = true;
  key_equiv : ∀ x y z, ltb x y = false → ltb y z = false → ltb x z = false
}.

(** [.sort([("average_rating", -1), ("rating_count", -1)])] *)
Definition top_rated_geb (a b : Resource) : bool :=
  opt_ltb Qltb (average_rating b) (average_rating a)
  || (negb (opt_ltb Qltb (average_rating a) (average_rating b))
      && negb (opt_ltb Nat.ltb (rating_count a) (rating_count b))).

Definition get_top_rated_resources (db : option DB) (mid : option string)
    (limit : Z) : list Rec :=
  match db with
  | None => []
  | Some d =>
      trending_dict
        <$> cursor_limit limit
              (sort_desc top_rated_geb
                 (filter (top_rated_query mid) (resources d)))
  end.

End TopRated.

(** ** The rating endpoint *)

Module Router.
Import Store.

Record RatingRequest := mkRatingRequest {
  rq_user_id : string;
  rq_resource_id : string;
  rq_rating : Q;
  rq_module_id : option string
}.

Record RatingResponse := mkRatingResponse {
  rs_success : bool;
  rs_rating : Q;
  rs_message : string
}.

(** The reply of the endpoint: the response model, an [HTTPException]
    with its status and detail, or the 422 of a request body that fails
    the field constraints. *)
Inductive Reply :=
| Ok (body : RatingResponse)
| HTTPException (status_code : nat) (detail : string)
| ValidationError.

(** The constraint [Field(..., ge=1, le=5)] on [rating]. *)
Definition rating_in_range (x : Q) : bool := Qle_bool 1 x && Qle_bool x 5.

(** [POST /rate] *)
Definition rate_resource (db : option DB) (now : Z) (request : RatingRequest)
    : Reply * option DB :=
  if rating_in_range (rq_rating request) then
    let '(result, db') :=
      Store.rate_resource db now (rq_user_id request) (rq_resource_id request)
        (rq_rating request) (rq_module_id request) in
    match result with
    | RateError msg => (HTTPException 400 msg, db')
    | RateSuccess _ =>
        (Ok (mkRatingResponse true (rq_rating request)
               "Rating saved successfully"), db')
    end
  else (ValidationError, db).

End Router.

(** ** Invariants of the store *)

Module Invariants.
Import Store Stated.

(** Every resource that has ratings carries the mean of its current
    ratings rounded to one decimal (a tenth at most 1/20 away from the
    mean) and their count (on the document that [find_one] returns). *)
Definition aggregates_fresh (d : DB) : Prop :=
  ∀ rid res,
    current_ratings rid (user_ratings d) ≠ [] →
    find_one rid (resources d) = Some res →
    (∃ q, average_rating res = Some q
          ∧ Qabs (q - arithmetic_mean (current_ratings rid (user_ratings d)))
              <= 1 # 20
          ∧ ∃ k : Z, q = inject_Z k / 10)
    ∧ rating_count res = Some (length (current_ratings rid (user_ratings d))).

End Invariants.

(** ** Variants of a module *)

Module Variants.
Import Scorer.

(** The module with another [progress]. *)
Definition with_progress (m : ModuleInput) (p : Z) : ModuleInput :=
  mkModule (id m) (name m) (difficulty m) (examDate m) (Some p).

(** The module with another [examDate]. *)
Definition with_exam (m : ModuleInput) (exam : string) : ModuleInput :=
  mkModule (id m) (name m) (difficulty m) (Some exam) (progress m).

(** The sort key of [module_scores.sort(key=..., reverse=True)] as a
    comparison. *)
Definition by_score (a b : ModuleInput * Q) : bool := Qle_bool (snd b) (snd a).

End Variants.

(** * Properties of the rating store *)

Section StoreFacts.
Import Store.

Lemma Qltb_lt (a b : Q) : Qltb a b = true ↔ a < b.
Proof.
  unfold Qltb. rewrite negb_true_iff. split.
  - intros H. apply Qnot_le_lt. intros Hle.
    apply Qle_bool_iff in Hle. congruence.
  - intros H. destruct (Qle_bool b a) eqn:E; [|done].
    apply Qle_bool_iff in E. exfalso. apply (Qlt_not_le _ _ H E).
Qed.

Lemma round_half_even_near (q : Q) :
  Qabs (inject_Z (round_half_even q) - q) <= 1 # 2.
Proof.
  pose proof (Qfloor_le q) as Hlo. pose proof (Qlt_floor q) as Hhi.
  rewrite inject_Z_plus in Hhi. change (inject_Z 1) with 1 in Hhi.
  unfold round_half_even.
  destruct (Qcompare (q - inject_Z (Qfloor q)) (1 # 2)) eqn:E.
  - apply Qeq_alt in E.
    destruct (Z.even (Qfloor q)); [|rewrite inject_Z_plus; change (inject_Z 1) with 1];
      apply Qabs_Qle_condition; split; lra.
  - apply Qlt_alt in E. apply Qabs_Qle_condition; split; lra.
  - apply Qgt_alt in E. rewrite inject_Z_plus. change (inject_Z 1) with 1.
    apply Qabs_Qle_condition; split; lra.
Qed.

Lemma round1_near (q : Q) : Qabs (round1 q - q) <= 1 # 20.
Proof.
  pose proof (round_half_even_near (q * 10)) as H.
  apply Qabs_Qle_condition in H. destruct H as [H1 H2].
  unfold round1. apply Qabs_Qle_condition.
  set (k := inject_Z (round_half_even (q * 10))) in *.
  unfold Qdiv. change (/ 10) with (1 # 10).
  split; lra.
Qed.

Lemma round1_tenth (q : Q) : ∃ k : Z, round1 q = inject_Z k / 10.
Proof. by exists (round_half_even (q * 10)). Qed.

(** A successful call is a valid rating followed by the upsert and the
    recompute. *)
Lemma rate_resource_success d now uid rid x mid y db' :
  rate_resource (Some d) now uid rid x mid = (RateSuccess y, db') →
  1 <= x ∧ x <= 5 ∧ y = x ∧
  db' = Some (_update_resource_average
                (mkDB (upsert_rating now uid rid mid x (user_ratings d))
                      (resources d)) rid).
Proof.
  unfold rate_resource.
  destruct (Qltb x 1) eqn:E1; [simpl; congruence|].
  destruct (Qltb 5 x) eqn:E2; [simpl; congruence|].
  simpl. intros [= <- <-]. repeat split; try done.
  - apply Qnot_lt_le. intros H. apply Qltb_lt in H. congruence.
  - apply Qnot_lt_le. intros H. apply Qltb_lt in H. congruence.
Qed.

Lemma rate_resource_valid d now uid rid x mid :
  1 <= x → x <= 5 →
  rate_resource (Some d) now uid rid x mid =
    (RateSuccess x,
     Some (_update_resource_average
             (mkDB (upsert_rating now uid rid mid x (user_ratings d))
                   (resources d)) rid)).
Proof.
  intros H1 H5. unfold rate_resource.
  destruct (Qltb x 1) eqn:E1.
  { apply Qltb_lt in E1. exfalso. apply (Qlt_not_le _ _ E1 H1). }
  destruct (Qltb 5 x) eqn:E2.
  { apply Qltb_lt in E2. exfalso. apply (Qlt_not_le _ _ E2 H5). }
  done.
Qed.

Lemma update_average_ratings d rid :
  user_ratings (_update_resource_average d rid) = user_ratings d.
Proof. unfold _update_resource_average. by destruct (ratings_of _ _). Qed.

(** The upsert leaves a row of the pair that carries the new value. *)
Lemma upsert_rating_row now uid rid mid x l :
  ∃ r, r ∈ upsert_rating now uid rid mid x l ∧
       same_key uid rid r ∧ rating r = x.
Proof.
  induction l as [|r l IH]; simpl.
  - eexists. split; [apply list_elem_of_here|]. by split.
  - destruct (decide (same_key uid rid r)).
    + eexists. split; [apply list_elem_of_here|]. by split.
    + destruct IH as (r' & Hin & Hk & Hr). exists r'.
      split; [by apply list_elem_of_further|done].
Qed.

Lemma ratings_of_upsert_nonempty now uid rid mid x l :
  ratings_of rid (upsert_rating now uid rid mid x l) ≠ [].
Proof.
  destruct (upsert_rating_row now uid rid mid x l) as (r & Hin & [_ Hk] & _).
  unfold ratings_of. intros H. apply fmap_nil_inv in H.
  exact (filter_nil_not_elem_of (λ r, resource_id r = rid) _ r H Hk Hin).
Qed.

Lemma find_one_set_aggregates rid a c l res :
  find_one rid (set_aggregates rid a c l) = Some res →
  average_rating res = Some a ∧ rating_count res = Some c.
Proof.
  unfold find_one. induction l as [|r l IH]; simpl; [done|].
  destruct (decide (res_id r = rid)) as [E|E].
  - rewrite filter_cons_True by done. simpl. by intros [= <-].
  - rewrite filter_cons_False by done. apply IH.
Qed.

(** What the recompute stores for the rated resource. *)
Lemma rate_resource_aggregates d now uid rid x mid d' res :
  rate_resource (Some d) now uid rid x mid = (RateSuccess x, Some d') →
  find_one rid (resources d') = Some res →
  average_rating res = Some (round1 (mean (ratings_of rid (user_ratings d'))))
  ∧ rating_count res = Some (length (ratings_of rid (user_ratings d'))).
Proof.
  intros Hrate Hfind.
  apply rate_resource_success in Hrate as (_ & _ & _ & [= ->]).
  rewrite update_average_ratings. simpl.
  unfold _update_resource_average in Hfind. simpl in Hfind.
  pose proof (ratings_of_upsert_nonempty now uid rid mid x (user_ratings d)).
  destruct (ratings_of rid (upsert_rating now uid rid mid x (user_ratings d)))
    as [|q qs] eqn:E; [done|].
  simpl in Hfind. by apply find_one_set_aggregates in Hfind.
Qed.

End StoreFacts.


Section Upsert.
Import Store.

Lemma same_key_key_of uid rid r : same_key uid rid r ↔ key_of r = (uid, rid).
Proof. unfold same_key, key_of. split; [by intros [-> ->]|by intros [= -> ->]]. Qed.

Lemma upsert_rating_keys now uid rid mid x l k :
  k ∈ key_of <$> upsert_rating now uid rid mid x l →
  k ∈ key_of <$> l ∨ k = (uid, rid).
Proof.
  induction l as [|r l IH]; simpl.
  - rewrite list_elem_of_singleton. auto.
  - destruct (decide (same_key uid rid r)) as [Hk|Hk]; simpl.
    + rewrite !elem_of_cons. intros [->|H]; [by right|by left; right].
    + rewrite !elem_of_cons. intros [->|H]; [by left; left|].
      destruct (IH H); [by left; right|by right].
Qed.

Lemma upsert_rating_unique now uid rid mid x l :
  unique_keys l → unique_keys (upsert_rating now uid rid mid x l).
Proof.
  unfold unique_keys.
  induction l as [|r l IH]; simpl.
  - intros _. apply NoDup_singleton.
  - rewrite NoDup_cons. intros [Hr Hl].
    destruct (decide (same_key uid rid r)) as [Hk|Hk]; simpl.
    + apply same_key_key_of in Hk. apply NoDup_cons. split; [|done].
      unfold key_of at 1. simpl. by rewrite <- Hk.
    + apply NoDup_cons. split; [|by apply IH].
      intros Hin. apply upsert_rating_keys in Hin as [Hin|Heq]; [done|].
      by apply Hk, same_key_key_of.
Qed.


Lemma run_call_unique c d :
  unique_keys (user_ratings d) →
  ∃ d', run_call (Some d) c = Some d' ∧ unique_keys (user_ratings d').
Proof.
  intros Hd. unfold run_call, rate_resource.
  destruct (Qltb (c_rating c) 1 || Qltb 5 (c_rating c)); simpl.
  - by exists d.
  - eexists. split; [done|]. rewrite update_average_ratings. simpl.
    by apply upsert_rating_unique.
Qed.

Lemma run_calls_unique cs d :
  unique_keys (user_ratings d) →
  ∃ d', run_calls (Some d) cs = Some d' ∧ unique_keys (user_ratings d').
Proof.
  revert d. induction cs as [|c cs IH]; intros d Hd.
  - by exists d.
  - destruct (run_call_unique c d Hd) as (d1 & E & H1).
    unfold run_calls. simpl. rewrite E. by apply IH.
Qed.


End Upsert.

Section MeanFacts.
Import Store Stated.

(** The two readings of "the ratings of a resource" and of "mean"
    agree: the [$match] and [$avg] of the code on one side, the words of
    the specification on the other. *)
Lemma current_ratings_eq rid rows : current_ratings rid rows = ratings_of rid rows.
Proof. reflexivity. Qed.

Lemma arithmetic_mean_eq l : arithmetic_mean l = mean l.
Proof. reflexivity. Qed.




End MeanFacts.

Section RatingClaims.
Import Store Samples Stated.

(** C7.  A call of [rate_resource] with a rating outside [1,5] returns
    an error and hands back the store it was given: no rating row is
    written or changed and no resource aggregate is touched. *)
Theorem rate_resource_rejects_out_of_range db now uid rid x mid :
  x < 1 ∨ 5 < x →
  ∃ msg, rate_resource db now uid rid x mid = (RateError msg, db).
Proof.
  intros Hx. destruct db as [d|]; simpl; [|by eexists].
  assert (Qltb x 1 || Qltb 5 x = true) as ->; [|by eexists].
  apply orb_true_iff. destruct Hx as [H|H]; [left|right]; by apply Qltb_lt.
Qed.

Lemma rate_resource_rejects_out_of_range_witness :
  (6 < 1 ∨ 5 < 6) ∧
  ∃ msg, rate_resource (Some two_fours) 300 "u3" "res1" 6 None
         = (RateError msg, Some two_fours).
Proof.
  split; [right; reflexivity|].
  apply rate_resource_rejects_out_of_range. right. reflexivity.
Defined.

(** C1, as the specification words it, fails: after a third rating of 5
    joins two ratings of 4 the mean is 13/3, the stored average is 4.3. *)
Lemma average_is_exact_mean_fails :
  ¬ average_is_exact_mean two_fours 300 "u3" "res1" 5 None.
Proof.
  intros H.
  destruct (H three_ratings rated_video eq_refl eq_refl) as [(q & Hq & Hm) _].
  injection Hq as <-. vm_compute in Hm. discriminate Hm.
Qed.

(** C1, amended.  After every successful [rate_resource] the stored
    [average_rating] of the rated resource is the arithmetic mean of
    its current ratings rounded to one decimal place, that is a multiple
    of 1/10 at most 1/20 away from the mean, and [rating_count] is their
    count. *)
Theorem rate_resource_average_rounded d now uid rid x mid d' res :
  rate_resource (Some d) now uid rid x mid = (RateSuccess x, Some d') →
  find_one rid (resources d') = Some res →
  ∃ q, average_rating res = Some q
       ∧ Qabs (q - arithmetic_mean (current_ratings rid (user_ratings d')))
           <= 1 # 20
       ∧ (∃ k : Z, q = inject_Z k / 10)
       ∧ rating_count res
           = Some (length (current_ratings rid (user_ratings d'))).
Proof.
  intros Hrate Hfind.
  destruct (rate_resource_aggregates _ _ _ _ _ _ _ _ Hrate Hfind) as [Ha Hc].
  rewrite !current_ratings_eq, arithmetic_mean_eq.
  eexists. split; [exact Ha|].
  split; [apply round1_near|]. split; [apply round1_tenth|exact Hc].
Qed.

Lemma rate_resource_average_rounded_witness :
  (rate_resource (Some two_fours) 300 "u3" "res1" 5 None
     = (RateSuccess 5, Some three_ratings)
   ∧ find_one "res1" (resources three_ratings) = Some rated_video)
  ∧ ∃ q, average_rating rated_video = Some q
       ∧ Qabs (q - arithmetic_mean
                     (current_ratings "res1" (user_ratings three_ratings)))
           <= 1 # 20
       ∧ (∃ k : Z, q = inject_Z k / 10)
       ∧ rating_count rated_video
           = Some (length (current_ratings "res1"
                             (user_ratings three_ratings))).
Proof.
  split; [split; reflexivity|].
  apply (rate_resource_average_rounded two_fours 300 "u3" "res1" 5 None);
    reflexivity.
Defined.



End RatingClaims.

(** * Properties of the similarity *)

Section SimilarityFacts.
Import Similarity Samples Stated.

Lemma sumQ_ext {A} (f g : A → Q) (l : list A) :
  (∀ x, f x == g x) → sumQ (f <$> l) == sumQ (g <$> l).
Proof.
  intros Hfg. induction l as [|x l IH]; simpl; [reflexivity|].
  by rewrite Hfg, IH.
Qed.

Lemma sumQ_nonneg (l : list Q) : (∀ x, x ∈ l → 0 <= x) → 0 <= sumQ l.
Proof.
  induction l as [|x l IH]; intros Hl; simpl; [discriminate|].
  pose proof (Hl x (list_elem_of_here _ _)).
  assert (0 <= sumQ l).
  { apply IH. intros y Hy. by apply Hl, list_elem_of_further. }
  lra.
Qed.

Lemma sumQ_pos (l : list Q) y :
  (∀ x, x ∈ l → 0 <= x) → y ∈ l → 0 < y → 0 < sumQ l.
Proof.
  induction l as [|x l IH]; intros Hl Hy Hpos; [by apply elem_of_nil in Hy|].
  simpl. pose proof (Hl x (list_elem_of_here _ _)).
  assert (∀ z, z ∈ l → 0 <= z) as Hl'.
  { intros z Hz. by apply Hl, list_elem_of_further. }
  apply elem_of_cons in Hy as [->|Hy].
  - pose proof (sumQ_nonneg l Hl'). lra.
  - pose proof (IH Hl' Hy Hpos). lra.
Qed.

Lemma square_nonneg (x : Q) : 0 <= x ^ 2.
Proof. simpl. nra. Qed.

Lemma square_pos (x : Q) : ¬ x == 0 → 0 < x ^ 2.
Proof.
  intros Hx. simpl.
  destruct (Qlt_le_dec x 0); [nra|].
  destruct (Qlt_le_dec 0 x); [nra|]. exfalso. apply Hx. lra.
Qed.

Lemma sum_squares_nonneg ratings common : 0 <= sum_squares ratings common.
Proof.
  apply sumQ_nonneg. intros x Hx.
  apply list_elem_of_fmap in Hx as (k & -> & _). apply square_nonneg.
Qed.

Lemma common_items_comm (a b : gmap string Q) :
  common_items a b = common_items b a.
Proof. unfold common_items. apply (comm_L (∩)). Qed.

Lemma common_items_self (a : gmap string Q) : common_items a a = dom a.
Proof. unfold common_items. apply (idemp_L (∩)). Qed.

Lemma dot_product_comm (a b : gmap string Q) :
  dot_product a b == dot_product b a.
Proof.
  unfold dot_product. rewrite (common_items_comm b a).
  apply sumQ_ext. intros x. ring.
Qed.

Lemma dot_product_self (a : gmap string Q) :
  dot_product a a == sum_squares a (common_items a a).
Proof.
  unfold dot_product, sum_squares. apply sumQ_ext. intros x. simpl. ring.
Qed.

(** Over the reals, the similarity of a map with itself is 1 when it
    has at least 2 entries, not all zero.  The code computes the binary64
    approximation of this value, which need not be 1.0 exactly. *)
Lemma cosine_similarity_self (a : gmap string Q) :
  (2 ≤ size (dom a))%nat →
  (∃ k x, a !! k = Some x ∧ ¬ x == 0) →
  _cosine_similarity a a = 1%R.
Proof.
  intros Hsize (k & x & Hk & Hx). unfold _cosine_similarity.
  destruct (decide (size (common_items a a) < 2)%nat) as [Hlt|_].
  { rewrite common_items_self in Hlt. lia. }
  rewrite (Qeq_eqR _ _ (dot_product_self a)).
  set (S := Q2R (sum_squares a (common_items a a))).
  assert (0 < S)%R as HS.
  { unfold S. rewrite <- RMicromega.Q2R_0.
    apply Qlt_Rlt. unfold sum_squares.
    apply (sumQ_pos _ (x ^ 2)).
    - intros y Hy. apply list_elem_of_fmap in Hy as (j & -> & _).
      apply square_nonneg.
    - apply list_elem_of_fmap. exists k. split.
      + unfold rating_at. by rewrite Hk.
      + apply elem_of_elements. rewrite common_items_self.
        apply elem_of_dom. by exists x.
    - by apply square_pos. }
  pose proof (sqrt_lt_R0 S HS) as Hsqrt.
  destruct (Req_dec_T (sqrt S) 0) as [E|_]; [Lra.lra|].
  rewrite sqrt_sqrt by Lra.lra. field. Lra.lra.
Qed.

(** Over the reals, the similarity does not depend on the order of its
    arguments. *)
Lemma cosine_similarity_comm (a b : gmap string Q) :
  _cosine_similarity a b = _cosine_similarity b a.
Proof.
  unfold _cosine_similarity.
  rewrite (common_items_comm b a), (Qeq_eqR _ _ (dot_product_comm b a)).
  destruct (decide (size (common_items a b) < 2)%nat); [done|].
  destruct (Req_dec_T (sqrt (Q2R (sum_squares a (common_items a b)))) 0);
    destruct (Req_dec_T (sqrt (Q2R (sum_squares b (common_items a b)))) 0);
    try done.
  by rewrite Rmult_comm.
Qed.

(** C3.  When the two maps share fewer than 2 rated resources the
    similarity is 0, whatever the rating values are. *)
Theorem cosine_similarity_small_overlap (a b : gmap string Q) :
  (size (common_items a b) < 2)%nat → _cosine_similarity a b = 0%R.
Proof.
  intros H. unfold _cosine_similarity.
  by destruct (decide (size (common_items a b) < 2)%nat).
Qed.

Lemma cosine_similarity_small_overlap_witness :
  (size (common_items ratings_u1 ratings_u2) < 2)%nat
  ∧ _cosine_similarity ratings_u1 ratings_u2 = 0%R.
Proof.
  assert (size (common_items ratings_u1 ratings_u2) < 2)%nat as H.
  { vm_compute. lia. }
  split; [exact H|].
  exact (cosine_similarity_small_overlap ratings_u1 ratings_u2 H).
Defined.

End SimilarityFacts.

(** * Properties of trending and of the recommender *)

Section SortFacts.
Context {A : Type} (geb : A → A → bool).

Lemma insert_desc_perm x l : insert_desc geb x l ≡ₚ x :: l.
Proof.
  induction l as [|y l IH]; simpl; [done|].
  destruct (geb x y); [done|]. rewrite IH. apply Permutation_swap.
Qed.

Lemma sort_desc_perm l : sort_desc geb l ≡ₚ l.
Proof.
  induction l as [|x l IH]; simpl; [done|].
  rewrite insert_desc_perm. by f_equiv.
Qed.

Lemma elem_of_sort_desc x l : x ∈ sort_desc geb l ↔ x ∈ l.
Proof. by rewrite sort_desc_perm. Qed.

End SortFacts.

Lemma elem_of_take_inv {A} (n : nat) (l : list A) x : x ∈ take n l → x ∈ l.
Proof. intros H. eapply elem_of_sublist; [exact H|apply sublist_take]. Qed.

Lemma py_slice_sublist {A} (limit : Z) (l : list A) :
  py_slice limit l `sublist_of` l.
Proof. unfold py_slice. destruct (0 <=? limit)%Z; apply sublist_take. Qed.

Section TrendingFacts.
Import Store Recommender Samples.

(** The ids of the pipeline only depend on the rows of the last week. *)
Lemma trending_ids_recent now limit l :
  trending_ids now limit l = trending_ids now limit (recent_rows now l).
Proof.
  unfold trending_ids, trending_groups.
  assert (recent_rows now (recent_rows now l) = recent_rows now l) as ->; [|done].
  unfold recent_rows. by apply list_filter_filter_l.
Qed.

(** Every id of the pipeline has at least one rating of the last week,
    and the mean of those ratings is at least 3.5. *)
Lemma trending_ids_floor now limit l rid :
  rid ∈ trending_ids now limit l →
  ratings_of rid (recent_rows now l) ≠ []
  ∧ 35 # 10 <= mean (ratings_of rid (recent_rows now l)).
Proof.
  unfold trending_ids. intros H.
  apply list_elem_of_fmap in H as (g & -> & Hg).
  apply elem_of_take_inv, elem_of_sort_desc, list_elem_of_filter in Hg
    as [Havg Hin].
  unfold trending_groups in Hin.
  apply list_elem_of_fmap in Hin as (rid & -> & Hrid). simpl in *.
  split; [|by apply Qle_bool_iff].
  apply elem_of_remove_dups, list_elem_of_fmap in Hrid as (r & -> & Hr).
  unfold ratings_of. intros E. apply fmap_nil_inv in E.
  exact (filter_nil_not_elem_of (λ r', resource_id r' = resource_id r)
           _ r E eq_refl Hr).
Qed.

Lemma trending_at_most_limit db now mid limit :
  (length (get_trending_resources db now mid limit) ≤ Pos.to_nat limit)%nat.
Proof.
  destruct db as [d|]; simpl; [|lia].
  rewrite length_fmap, length_take. lia.
Qed.

Lemma trending_quality_floor d now mid limit r :
  r ∈ get_trending_resources (Some d) now mid limit →
  ratings_of (rec_id r) (recent_rows now (user_ratings d)) ≠ []
  ∧ 35 # 10 <= mean (ratings_of (rec_id r) (recent_rows now (user_ratings d))).
Proof.
  simpl. intros H. apply list_elem_of_fmap in H as (res & -> & Hres).
  apply elem_of_take_inv, list_elem_of_filter in Hres as [[Hid _] _].
  by apply trending_ids_floor in Hid.
Qed.

(** C5, on the code.  In [busy_store] the pipeline ranks [resB] (two
    recent ratings) before [resA] (one recent rating), but the result of
    [get_trending_resources] lists [resA] first, and with [limit = 1]
    it is [resA] alone. *)
Theorem trending_order_lost :
  trending_ids 5000 10 (user_ratings busy_store) = ["resB"; "resA"]%string
  ∧ length (ratings_of "resA" (recent_rows 5000 (user_ratings busy_store))) = 1%nat
  ∧ length (ratings_of "resB" (recent_rows 5000 (user_ratings busy_store))) = 2%nat
  ∧ rec_id <$> get_trending_resources (Some busy_store) 5000 None 10
      = ["resA"; "resB"]%string
  ∧ rec_id <$> get_trending_resources (Some busy_store) 5000 None 1
      = ["resA"]%string.
Proof. repeat split; by vm_compute. Qed.

End TrendingFacts.

Section RecommenderFacts.
Import Store Similarity Recommender Samples.

Lemma find_one_Some rid l r : find_one rid l = Some r → res_id r = rid ∧ r ∈ l.
Proof.
  unfold find_one. intros H. apply head_Some_elem_of in H.
  by apply list_elem_of_filter in H.
Qed.

Lemma dedupe_elem_of seen l r : r ∈ dedupe seen l → r ∈ l.
Proof.
  revert seen. induction l as [|x l IH]; intros seen; simpl; [done|].
  destruct (decide (rec_id x ∈ seen)).
  - intros H. apply list_elem_of_further. by eapply IH.
  - rewrite elem_of_cons. intros [->|H]; [apply list_elem_of_here|].
    apply list_elem_of_further. by eapply IH.
Qed.

Lemma dedupe_not_seen seen l r : r ∈ dedupe seen l → rec_id r ∉ seen.
Proof.
  revert seen. induction l as [|x l IH]; intros seen; simpl.
  - by intros H%elem_of_nil.
  - destruct (decide (rec_id x ∈ seen)); [apply IH|].
    rewrite elem_of_cons. intros [->|H]; [done|].
    apply IH in H. set_solver.
Qed.

Lemma dedupe_NoDup seen l : NoDup (rec_id <$> dedupe seen l).
Proof.
  revert seen. induction l as [|x l IH]; intros seen; simpl.
  - apply NoDup_nil_2.
  - destruct (decide (rec_id x ∈ seen)); [apply IH|].
    simpl. apply NoDup_cons. split; [|apply IH].
    intros H. apply list_elem_of_fmap in H as (r & Hid & Hr).
    apply dedupe_not_seen in Hr. set_solver.
Qed.

Lemma bump_keys rid w scores k :
  k ∈ (bump rid w scores).*1 → k = rid ∨ k ∈ scores.*1.
Proof.
  induction scores as [|[k' [s c]] rest IH]; simpl.
  - rewrite list_elem_of_singleton. auto.
  - destruct (decide (k' = rid)); simpl; rewrite !elem_of_cons.
    + tauto.
    + intros [->|H]; [tauto|]. destruct (IH H); tauto.
Qed.

(** The [defaultdict] of the collaborative step never gets a key that
    the user has rated. *)
Lemma accumulate_user_keys rated scores user :
  (∀ k, k ∈ scores.*1 → k ∉ rated) →
  ∀ k, k ∈ (accumulate_user rated scores user).*1 → k ∉ rated.
Proof.
  unfold accumulate_user. generalize (map_to_list (su_ratings user)).
  intros items. revert scores.
  induction items as [|p items IH]; intros scores Hs; simpl; [done|].
  apply IH. destruct (bool_decide (p.1 ∉ rated)) eqn:E; simpl; [|done].
  destruct (Qle_bool 4 p.2); [|done].
  intros k Hk. apply bump_keys in Hk as [->|Hk]; [|by apply Hs].
  by apply bool_decide_eq_true in E.
Qed.

Lemma resource_scores_keys rated users scores :
  (∀ k, k ∈ scores.*1 → k ∉ rated) →
  ∀ k, k ∈ (foldl (accumulate_user rated) scores users).*1 → k ∉ rated.
Proof.
  revert scores. induction users as [|u users IH]; intros scores Hs; simpl;
    [done|].
  apply IH. by apply accumulate_user_keys.
Qed.

Lemma collaborative_not_rated d users rated mid r :
  r ∈ _get_collaborative_recommendations d users rated mid →
  rec_id r ∉ rated.
Proof.
  unfold _get_collaborative_recommendations. intros H.
  apply list_elem_of_omap in H as ([rid [score count]] & Hin & Hr).
  destruct (find_one rid (resources d)) as [res|] eqn:E; [|done].
  destruct (truthy mid && negb (bool_decide (res_module_id res = mid)));
    [done|].
  injection Hr as <-. simpl.
  apply find_one_Some in E as [E _].
  apply (resource_scores_keys rated users []).
  - intros k Hk. by apply elem_of_nil in Hk.
  - apply list_elem_of_fmap. exists (rid, (score, count)). by split.
Qed.

Lemma content_not_rated d mid rated r :
  r ∈ _get_content_based_recommendations d mid rated → rec_id r ∉ rated.
Proof.
  unfold _get_content_based_recommendations. intros H.
  apply list_elem_of_fmap in H as (res & -> & Hres).
  by apply elem_of_take_inv, elem_of_sort_desc, list_elem_of_filter in Hres
    as [[_ Hid] _].
Qed.

(** C6.  Whatever the store holds, the list that
    [get_recommendations_for_user] returns has no resource that the user
    has a rating row for, and no two entries with the same id. *)
Theorem recommendations_fresh_and_distinct db now uid mid limit :
  let recs := get_recommendations_for_user db now uid mid limit in
  (∀ r d row, r ∈ recs → db = Some d → row ∈ user_ratings d →
              user_id row = uid → resource_id row ≠ rec_id r)
  ∧ NoDup (rec_id <$> recs).
Proof.
  destruct db as [d|]; unfold get_recommendations_for_user; cbv zeta.
  2:{ split; [|apply NoDup_nil_2]. intros r d row H. by apply elem_of_nil in H. }
  set (rows := get_user_ratings (Some d) uid).
  set (rated := list_to_set ((λ row, row.1.1) <$> rows) : gset string).
  set (recommendations := _ ++ _ ++ _).
  split.
  - intros r d' row Hr [= <-] Hrow Hu Heq.
    eapply elem_of_sublist in Hr; [|apply py_slice_sublist].
    apply elem_of_sort_desc in Hr. apply dedupe_elem_of in Hr.
    assert (rec_id r ∉ rated) as Hfresh.
    { unfold recommendations in Hr. rewrite !elem_of_app in Hr.
      destruct Hr as [Hr|[Hr|Hr]].
      - destruct (3 <=? length rows)%nat; [|by apply elem_of_nil in Hr].
        by eapply collaborative_not_rated.
      - destruct (truthy mid); [|by apply elem_of_nil in Hr].
        by eapply content_not_rated.
      - apply list_elem_of_fmap in Hr as (t & -> & Ht).
        by apply list_elem_of_filter in Ht as [Ht _]. }
    apply Hfresh. unfold rated. apply elem_of_list_to_set.
    apply list_elem_of_fmap.
    exists (resource_id row, rating row, rating_module_id row).
    split; [done|]. unfold rows, get_user_ratings. apply list_elem_of_fmap.
    exists row. split; [done|]. by apply list_elem_of_filter.
  - eapply sublist_NoDup; [|apply fmap_sublist, py_slice_sublist].
    rewrite sort_desc_perm. apply dedupe_NoDup.
Qed.

Lemma recommendations_fresh_and_distinct_witness :
  let recs := get_recommendations_for_user (Some busy_store) 5000 "u1" None 10 in
  let row := mkRating "u1" "resB" None 5 1000 1000 in
  let r := mark_trending (trending_dict resource_a) in
  (r ∈ recs ∧ row ∈ user_ratings busy_store ∧ user_id row = "u1"%string)
  ∧ resource_id row ≠ rec_id r
  ∧ NoDup (rec_id <$> recs).
Proof.
  intros recs row r.
  assert (r ∈ recs) as Hr.
  { assert (recs = [r]) as -> by (by vm_compute). apply list_elem_of_here. }
  assert (row ∈ user_ratings busy_store) as Hrow by apply list_elem_of_here.
  split; [done|].
  destruct (recommendations_fresh_and_distinct (Some busy_store) 5000 "u1"
              None 10) as [Hfresh Hdistinct].
  split; [exact (Hfresh r busy_store row Hr eq_refl Hrow eq_refl)|].
  exact Hdistinct.
Defined.

End RecommenderFacts.

(** * Properties of the study-priority scorer *)

Section ScorerFacts.
Import Scorer Samples Stated.

Variable fromisoformat : string → option datetime.
Variable _generate_explanation :
  ModuleInput → string → Z → StudyDecisionRequest → Q → string.

Lemma sort_desc_nonempty {A} (geb : A → A → bool) (l : list A) :
  l ≠ [] → sort_desc geb l ≠ [].
Proof.
  intros Hl E. apply Hl. apply Permutation_nil_r.
  rewrite <- E. by rewrite sort_desc_perm.
Qed.

(** With at least one module the call returns a decision. *)
Lemma get_recommendation_returns now request :
  modules request ≠ [] →
  ∃ decision,
    get_recommendation fromisoformat _generate_explanation now request
      = Returns decision.
Proof.
  intros Hm. unfold get_recommendation.
  set (scored := sort_desc _ _).
  assert (scored ≠ []) as Hs.
  { apply sort_desc_nonempty. intros E. by apply fmap_nil_inv in E. }
  destruct scored; [done|]. by eexists.
Qed.

Lemma reasons_without_exam now m t :
  t ∈ reasons fromisoformat now (without_exam m) →
  t ∈ ["Low progress"; "High difficulty"; "Good time to review"]%string.
Proof.
  unfold reasons, without_exam. simpl.
  destruct (progress m) as [p|]; [destruct (p <? 50)%Z|];
    destruct (7 <=? difficulty m)%Z; simpl; rewrite !elem_of_cons; tauto.
Qed.

(** From one full day ahead on, the code adds the bonus of the
    specification. *)
Lemma score_with_bonus_full_day now m exam request d :
  examDate m = Some exam → exam ≠ ""%string →
  days_until_exam fromisoformat now exam = Some d → (0 < d)%Z →
  _calculate_module_score fromisoformat now m request
    == score_with_bonus m request d.
Proof.
  intros Hexam Hne Hd Hpos.
  unfold _calculate_module_score, score_with_bonus. rewrite Hexam. simpl.
  assert (String.eqb exam "" = false) as -> by by apply String.eqb_neq.
  simpl. rewrite Hd.
  assert ((0 <? d)%Z = true) as -> by by apply Z.ltb_lt.
  destruct (progress m); ring.
Qed.

(** C9.  For a request whose list of modules is empty
    [get_recommendation] returns no decision: selecting
    [module_scores[0]] raises [IndexError]. *)
Theorem get_recommendation_empty_modules now mood energy time :
  get_recommendation fromisoformat _generate_explanation now
    (mkRequest mood energy time []) = Raises IndexError
  ∧ ∀ decision,
      get_recommendation fromisoformat _generate_explanation now
        (mkRequest mood energy time []) ≠ Returns decision.
Proof. split; [reflexivity|discriminate]. Qed.

(** C10.  A module whose [examDate] is present but is not read by
    [fromisoformat] is scored as the same module without an exam date:
    no proximity bonus, none but the progress, difficulty and default
    reasons, and the call still returns a decision. *)
Theorem unparseable_exam_date_ignored now m exam request :
  examDate m = Some exam →
  fromisoformat (replace_Z exam) = None →
  m ∈ modules request →
  _calculate_module_score fromisoformat now m request
    = _calculate_module_score fromisoformat now (without_exam m) request
  ∧ reasons fromisoformat now m = reasons fromisoformat now (without_exam m)
  ∧ _get_reason fromisoformat now m request
      = _get_reason fromisoformat now (without_exam m) request
  ∧ (∀ t, t ∈ reasons fromisoformat now m →
          t ∈ ["Low progress"; "High difficulty"; "Good time to review"]%string)
  ∧ ∃ decision,
      get_recommendation fromisoformat _generate_explanation now request
        = Returns decision.
Proof.
  intros Hexam Hparse Hin.
  assert (reasons fromisoformat now m
          = reasons fromisoformat now (without_exam m)) as Hreasons.
  { unfold reasons, without_exam, days_until_exam. simpl.
    rewrite Hexam. simpl. rewrite Hparse. by destruct (negb _). }
  split; [|split; [exact Hreasons|split; [|split]]].
  - unfold _calculate_module_score, without_exam, days_until_exam. simpl.
    rewrite Hexam. simpl. rewrite Hparse. by destruct (negb _).
  - unfold _get_reason. by rewrite Hreasons.
  - intros t. rewrite Hreasons. apply reasons_without_exam.
  - apply get_recommendation_returns. intros E. rewrite E in Hin.
    by apply elem_of_nil in Hin.
Qed.

End ScorerFacts.

Section ScorerRuns.
Import Scorer Samples Stated.

Lemma unparseable_exam_date_ignored_witness :
  (examDate exam_garbled = Some "not-a-date"%string
   ∧ iso_parse (replace_Z "not-a-date") = None
   ∧ exam_garbled ∈ modules (evening [exam_garbled]))
  ∧ _calculate_module_score iso_parse new_year exam_garbled
      (evening [exam_garbled])
    = _calculate_module_score iso_parse new_year (without_exam exam_garbled)
        (evening [exam_garbled])
  ∧ _get_reason iso_parse new_year exam_garbled (evening [exam_garbled])
    = "High difficulty"%string
  ∧ ∃ decision,
      get_recommendation iso_parse fixed_explanation new_year
        (evening [exam_garbled]) = Returns decision.
Proof.
  assert (exam_garbled ∈ modules (evening [exam_garbled])) as Hin.
  { apply list_elem_of_here. }
  split; [by repeat split|].
  destruct (unparseable_exam_date_ignored iso_parse fixed_explanation
              new_year exam_garbled "not-a-date" (evening [exam_garbled])
              eq_refl eq_refl Hin) as (Hs & _ & Hr & _ & Hd).
  split; [exact Hs|]. split; [by rewrite Hr|exact Hd].
Defined.

(** C4, on the code.  At 2025-01-01T00:00 a module whose exam is at
    noon of the same day lies strictly in the future, [timedelta.days]
    is 0, and the score is the score of the module without an exam, not
    the score with the bonus [100 / (1 + 0 / 7)].  A module whose exam
    date ends in [Z] is aware, the subtraction of the naive
    [datetime.now()] raises, and it gets no bonus either. *)
Theorem exam_within_a_day_gets_no_bonus :
  (∃ exam_date,
     iso_parse "2025-01-01T12:00:00" = Some exam_date
     ∧ utcoffset exam_date = None
     ∧ (new_year < instant exam_date)%Z)
  ∧ days_until_exam iso_parse new_year "2025-01-01T12:00:00" = Some 0%Z
  ∧ _calculate_module_score iso_parse new_year exam_at_noon
      (evening [exam_at_noon])
    = _calculate_module_score iso_parse new_year (without_exam exam_at_noon)
        (evening [exam_at_noon])
  ∧ ¬ _calculate_module_score iso_parse new_year exam_at_noon
        (evening [exam_at_noon])
      == score_with_bonus exam_at_noon (evening [exam_at_noon]) 0
  ∧ days_until_exam iso_parse new_year "2025-01-15T00:00:00Z" = None
  ∧ _calculate_module_score iso_parse new_year exam_utc (evening [exam_utc])
    = _calculate_module_score iso_parse new_year (without_exam exam_utc)
        (evening [exam_utc]).
Proof.
  split; [eexists; split; [by vm_compute|split; by vm_compute]|].
  repeat split; try by vm_compute.
Qed.

End ScorerRuns.

(** * Further properties of the rating store *)

Section StoreMore.
Import Store Samples Invariants.

Lemma upsert_rating_head now uid rid mid x l :
  rating <$> head (filter (same_key uid rid) (upsert_rating now uid rid mid x l))
  = Some x.
Proof.
  induction l as [|r l IH]; simpl.
  - by rewrite filter_cons_True.
  - destruct (decide (same_key uid rid r)).
    + by rewrite filter_cons_True.
    + by rewrite filter_cons_False.
Qed.

Lemma upsert_rating_other_key now uid rid mid x uid' rid' l :
  (uid', rid') ≠ (uid, rid) →
  filter (same_key uid' rid') (upsert_rating now uid rid mid x l)
  = filter (same_key uid' rid') l.
Proof.
  intros Hne.
  assert (∀ c, ¬ same_key uid' rid' (mkRating uid rid mid x now c)) as Hnew.
  { intros c [? ?]. simpl in *. congruence. }
  induction l as [|r l IH]; simpl.
  - by rewrite filter_cons_False.
  - destruct (decide (same_key uid rid r)) as [[Hu Hr]|Hk].
    + rewrite filter_cons_False by apply Hnew.
      rewrite filter_cons_False; [done|].
      intros [? ?]. congruence.
    + destruct (decide (same_key uid' rid' r)).
      * rewrite !filter_cons_True by done. by rewrite IH.
      * by rewrite !filter_cons_False.
Qed.

Lemma ratings_of_upsert_other now uid rid mid x rid' l :
  rid' ≠ rid →
  ratings_of rid' (upsert_rating now uid rid mid x l) = ratings_of rid' l.
Proof.
  intros Hne. unfold ratings_of. f_equal.
  induction l as [|r l IH]; simpl.
  - by rewrite filter_cons_False.
  - destruct (decide (same_key uid rid r)) as [[Hu Hr]|Hk].
    + rewrite !filter_cons_False; [done|congruence|simpl; congruence].
    + destruct (decide (resource_id r = rid')).
      * rewrite !filter_cons_True by done. by rewrite IH.
      * by rewrite !filter_cons_False.
Qed.

Lemma find_one_set_aggregates_other rid a c rid' l :
  rid' ≠ rid → find_one rid' (set_aggregates rid a c l) = find_one rid' l.
Proof.
  intros Hne. unfold find_one. induction l as [|r l IH]; simpl; [done|].
  destruct (decide (res_id r = rid)) as [E|E].
  - rewrite !filter_cons_False; [done|congruence|simpl; congruence].
  - destruct (decide (res_id r = rid')).
    + by rewrite !filter_cons_True.
    + by rewrite !filter_cons_False.
Qed.

Lemma set_aggregates_absent rid a c l :
  find_one rid l = None → set_aggregates rid a c l = l.
Proof.
  unfold find_one. induction l as [|r l IH]; simpl; [done|].
  destruct (decide (res_id r = rid)).
  - by rewrite filter_cons_True.
  - rewrite filter_cons_False by done. intros H. by rewrite IH.
Qed.

Lemma set_aggregates_twice rid a c l :
  set_aggregates rid a c (set_aggregates rid a c l) = set_aggregates rid a c l.
Proof.
  induction l as [|r l IH]; simpl; [done|].
  destruct (decide (res_id r = rid)) as [E|E]; simpl.
  - by rewrite decide_True.
  - rewrite decide_False by done. by rewrite IH.
Qed.

Lemma upsert_rating_twice now uid rid mid x l :
  upsert_rating now uid rid mid x (upsert_rating now uid rid mid x l)
  = upsert_rating now uid rid mid x l.
Proof.
  induction l as [|r l IH]; simpl.
  - by rewrite decide_True.
  - destruct (decide (same_key uid rid r)) as [E|E]; simpl.
    + by rewrite decide_True.
    + rewrite decide_False by done. by rewrite IH.
Qed.

Lemma upsert_rating_length now uid rid mid x l :
  length (upsert_rating now uid rid mid x l)
  = match head (filter (same_key uid rid) l) with
    | Some _ => length l
    | None => S (length l)
    end.
Proof.
  induction l as [|r l IH]; simpl; [done|].
  destruct (decide (same_key uid rid r)).
  - by rewrite filter_cons_True.
  - rewrite filter_cons_False by done. simpl. rewrite IH.
    by destruct (head _).
Qed.

Lemma update_average_twice rows docs rid :
  _update_resource_average
    (mkDB rows (resources (_update_resource_average (mkDB rows docs) rid))) rid
  = _update_resource_average (mkDB rows docs) rid.
Proof.
  unfold _update_resource_average. simpl.
  destruct (ratings_of rid rows) as [|q qs]; simpl; [done|].
  by rewrite set_aggregates_twice.
Qed.

End StoreMore.

Section StoreExtras.
Import Store Samples Invariants.

(** X1.  After a successful [rate_resource], [get_user_rating] of the
    same user and resource returns the value that was just written. *)
Theorem rate_then_get_user_rating d now uid rid x mid db' :
  rate_resource (Some d) now uid rid x mid = (RateSuccess x, db') →
  get_user_rating db' uid rid = Some x.
Proof.
  intros H. apply rate_resource_success in H as (_ & _ & _ & ->).
  unfold get_user_rating. rewrite update_average_ratings. simpl.
  apply upsert_rating_head.
Qed.

Lemma rate_then_get_user_rating_witness :
  rate_resource (Some two_fours) 300 "u3" "res1" 5 None
    = (RateSuccess 5, Some three_ratings)
  ∧ get_user_rating (Some three_ratings) "u3" "res1" = Some 5.
Proof.
  split; [reflexivity|].
  apply (rate_then_get_user_rating two_fours 300 "u3" "res1" 5 None).
  reflexivity.
Defined.

(** X2.  A call of [rate_resource], whatever its outcome, leaves the
    rating that [get_user_rating] reports for every other (user,
    resource) pair as it was. *)
Theorem rate_keeps_other_ratings db now uid rid x mid uid' rid' :
  (uid', rid') ≠ (uid, rid) →
  get_user_rating (rate_resource db now uid rid x mid).2 uid' rid'
  = get_user_rating db uid' rid'.
Proof.
  intros Hne. destruct db as [d|]; [|done]. unfold rate_resource.
  destruct (Qltb x 1 || Qltb 5 x); [done|]. simpl.
  rewrite update_average_ratings. simpl.
  by rewrite upsert_rating_other_key.
Qed.

Lemma rate_keeps_other_ratings_witness :
  ("u1"%string, "res1"%string) ≠ ("u3"%string, "res1"%string)
  ∧ get_user_rating
      (rate_resource (Some two_fours) 300 "u3" "res1" 5 None).2 "u1" "res1"
    = get_user_rating (Some two_fours) "u1" "res1".
Proof.
  assert (("u1"%string, "res1"%string) ≠ ("u3"%string, "res1"%string)) as H
    by discriminate.
  split; [exact H|].
  exact (rate_keeps_other_ratings (Some two_fours) 300 "u3" "res1" 5 None
           "u1" "res1" H).
Defined.

(** X3.  A successful [rate_resource] adds at most one row: the number
    of rows is unchanged when the pair already had a row, and grows by
    one when it had none. *)
Theorem rate_row_count d now uid rid x mid d' :
  rate_resource (Some d) now uid rid x mid = (RateSuccess x, Some d') →
  length (user_ratings d')
  = match get_user_rating (Some d) uid rid with
    | Some _ => length (user_ratings d)
    | None => S (length (user_ratings d))
    end.
Proof.
  intros H. apply rate_resource_success in H as (_ & _ & _ & [= ->]).
  rewrite update_average_ratings. simpl. rewrite upsert_rating_length.
  by destruct (head _).
Qed.

Lemma rate_row_count_witness :
  rate_resource (Some two_fours) 300 "u3" "res1" 5 None
    = (RateSuccess 5, Some three_ratings)
  ∧ length (user_ratings three_ratings) = 3%nat.
Proof.
  split; [reflexivity|].
  exact (rate_row_count two_fours 300 "u3" "res1" 5 None three_ratings
           eq_refl).
Defined.

(** X4.  A call of [rate_resource] for one resource leaves the document
    of every other resource id as it was. *)
Theorem rate_keeps_other_resources d now uid rid x mid rid' :
  rid' ≠ rid →
  ∃ d', (rate_resource (Some d) now uid rid x mid).2 = Some d'
        ∧ find_one rid' (resources d') = find_one rid' (resources d).
Proof.
  intros Hne. unfold rate_resource.
  destruct (Qltb x 1 || Qltb 5 x); simpl; [by eexists|].
  eexists. split; [done|]. unfold _update_resource_average. simpl.
  destruct (ratings_of rid _); [done|]. simpl.
  by apply find_one_set_aggregates_other.
Qed.

Lemma rate_keeps_other_resources_witness :
  "res2"%string ≠ "res1"%string
  ∧ ∃ d', (rate_resource (Some two_fours) 300 "u3" "res1" 5 None).2 = Some d'
          ∧ find_one "res2" (resources d')
            = find_one "res2" (resources two_fours).
Proof.
  assert ("res2"%string ≠ "res1"%string) as H by discriminate.
  split; [exact H|].
  exact (rate_keeps_other_resources two_fours 300 "u3" "res1" 5 None
           "res2" H).
Defined.

(** X5.  Rating a resource id that has no document in [resources]
    still succeeds and stores the rating row, but creates no resource
    document: the [resources] collection is unchanged. *)
Theorem rate_unknown_resource d now uid rid x mid :
  1 <= x <= 5 →
  find_one rid (resources d) = None →
  ∃ d', rate_resource (Some d) now uid rid x mid = (RateSuccess x, Some d')
        ∧ resources d' = resources d
        ∧ get_user_rating (Some d') uid rid = Some x.
Proof.
  intros [H1 H5] Hnone.
  pose proof (rate_resource_valid d now uid rid x mid H1 H5) as E.
  eexists. split; [exact E|]. split.
  - unfold _update_resource_average. simpl.
    destruct (ratings_of rid _); [done|]. simpl.
    by apply set_aggregates_absent.
  - unfold get_user_rating. rewrite update_average_ratings. simpl.
    apply upsert_rating_head.
Qed.

Lemma rate_unknown_resource_witness :
  (1 <= 4 <= 5 ∧ find_one "ghost" (resources two_fours) = None)
  ∧ ∃ d', rate_resource (Some two_fours) 300 "u3" "ghost" 4 None
            = (RateSuccess 4, Some d')
          ∧ resources d' = resources two_fours
          ∧ get_user_rating (Some d') "u3" "ghost" = Some 4.
Proof.
  assert (1 <= 4 <= 5) as H by (split; discriminate).
  split; [by split|].
  exact (rate_unknown_resource two_fours 300 "u3" "ghost" 4 None H eq_refl).
Defined.

(** X6.  Repeating a call of [rate_resource] with the same arguments
    changes nothing: the store after the second call is the store after
    the first. *)
Theorem rate_resource_idempotent db now uid rid x mid :
  (rate_resource (rate_resource db now uid rid x mid).2 now uid rid x mid).2
  = (rate_resource db now uid rid x mid).2.
Proof.
  destruct db as [d|]; [|done].
  assert (∀ d0, (rate_resource (Some d0) now uid rid x mid).2
            = if Qltb x 1 || Qltb 5 x then Some d0
              else Some (_update_resource_average
                           (mkDB (upsert_rating now uid rid mid x
                                    (user_ratings d0)) (resources d0)) rid))
    as Hstep.
  { intros d0. unfold rate_resource. by destruct (Qltb x 1 || Qltb 5 x). }
  rewrite (Hstep d). destruct (Qltb x 1 || Qltb 5 x) eqn:E.
  - by rewrite Hstep.
  - rewrite Hstep. f_equal. rewrite update_average_ratings. simpl.
    rewrite upsert_rating_twice. apply update_average_twice.
Qed.

(** X7.  Starting from a store without ratings, every sequence of
    [rate_resource] calls keeps the keys (user_id, resource_id) of the
    rows distinct. *)
Theorem rate_calls_keep_unique_keys rs cs :
  ∃ d', run_calls (Some (mkDB [] rs)) cs = Some d'
        ∧ unique_keys (user_ratings d').
Proof. apply run_calls_unique. apply NoDup_nil_2. Qed.

Lemma rate_call_aggregates_fresh c d :
  aggregates_fresh d →
  ∃ d', run_call (Some d) c = Some d' ∧ aggregates_fresh d'.
Proof.
  intros Hd. unfold run_call.
  destruct (Qltb (c_rating c) 1 || Qltb 5 (c_rating c)) eqn:E.
  { unfold rate_resource. rewrite E. by exists d. }
  assert (1 <= c_rating c ∧ c_rating c <= 5) as [H1 H5].
  { apply orb_false_iff in E as [E1 E5]. split; apply Qnot_lt_le;
      intros H; apply Qltb_lt in H; congruence. }
  pose proof (rate_resource_valid d (c_now c) (c_user c) (c_resource c)
                (c_rating c) (c_module c) H1 H5) as Hrate.
  rewrite Hrate. eexists. split; [done|].
  intros rid res Hne Hfind.
  destruct (decide (rid = c_resource c)) as [->|Hrid].
  - destruct (rate_resource_aggregates _ _ _ _ _ _ _ _ Hrate Hfind)
      as [Ha Hc].
    rewrite !current_ratings_eq, arithmetic_mean_eq.
    split; [|exact Hc]. eexists. split; [exact Ha|].
    split; [apply round1_near|apply round1_tenth].
  - rewrite !current_ratings_eq in *.
    rewrite update_average_ratings in *. cbn [user_ratings] in *.
    rewrite ratings_of_upsert_other in * by done.
    rewrite <- !current_ratings_eq.
    apply Hd; [done|].
    unfold _update_resource_average in Hfind. simpl in Hfind.
    destruct (ratings_of (c_resource c) _); [done|]. simpl in Hfind.
    by rewrite find_one_set_aggregates_other in Hfind.
Qed.

(** X8.  Starting from a store without ratings, after every sequence of
    [rate_resource] calls each resource that has ratings carries the
    mean of its current ratings rounded to one decimal (a multiple of
    1/10 at most 1/20 away from the mean) and their count: ratings of
    other resources never leave an aggregate stale. *)
Theorem rate_calls_keep_aggregates_fresh rs cs :
  ∃ d', run_calls (Some (mkDB [] rs)) cs = Some d' ∧ aggregates_fresh d'.
Proof.
  assert (aggregates_fresh (mkDB [] rs)) as H0.
  { intros rid res Hne. by destruct Hne. }
  revert H0. generalize (mkDB [] rs). induction cs as [|c cs IH]; intros d Hd.
  - by exists d.
  - destruct (rate_call_aggregates_fresh c d Hd) as (d1 & E & H1).
    unfold run_calls. simpl. rewrite E. by apply IH.
Qed.

End StoreExtras.

(** * Further properties of the similarity *)

Section SimilarityMore.
Import Similarity Samples.

(** A common item of two maps of valid ratings has a rating of at least
    1 in each. *)
Lemma rating_at_common (a b : gmap string Q) k :
  map_Forall (λ _ x, 1 <= x ∧ x <= 5) a →
  k ∈ common_items a b → 1 <= rating_at a k.
Proof.
  intros Ha Hk. unfold common_items in Hk.
  apply elem_of_intersection in Hk as [Hk _].
  apply elem_of_dom in Hk as [x Hx]. unfold rating_at. rewrite Hx. simpl.
  by destruct (Ha k x Hx).
Qed.

Lemma sum_squares_pos (a : gmap string Q) (common : gset string) k :
  k ∈ common → 1 <= rating_at a k → 0 < sum_squares a common.
Proof.
  intros Hk H1. unfold sum_squares.
  apply (sumQ_pos _ (rating_at a k ^ 2)).
  - intros y Hy. apply list_elem_of_fmap in Hy as (j & -> & _).
    apply square_nonneg.
  - apply list_elem_of_fmap. exists k. split; [done|].
    by apply elem_of_elements.
  - apply square_pos. intros E. rewrite E in H1. by apply H1.
Qed.

Lemma dot_product_pos (a b : gmap string Q) k :
  map_Forall (λ _ x, 1 <= x ∧ x <= 5) a →
  map_Forall (λ _ x, 1 <= x ∧ x <= 5) b →
  k ∈ common_items a b → 0 < dot_product a b.
Proof.
  intros Ha Hb Hk. unfold dot_product.
  assert (∀ j, j ∈ common_items a b →
            1 <= rating_at a j ∧ 1 <= rating_at b j) as Hone.
  { intros j Hj. split; [by apply (rating_at_common a b)|].
    apply (rating_at_common b a); [done|].
    by rewrite (common_items_comm b a). }
  apply (sumQ_pos _ (rating_at a k * rating_at b k)).
  - intros y Hy. apply list_elem_of_fmap in Hy as (j & -> & Hj).
    apply elem_of_elements in Hj. destruct (Hone j Hj). nra.
  - apply list_elem_of_fmap. exists k. split; [done|].
    by apply elem_of_elements.
  - destruct (Hone k Hk). nra.
Qed.

(** X9.  For two maps of valid ratings (between 1 and 5, as
    [rate_resource] stores them) the similarity is positive exactly when
    the maps share at least 2 rated resources; otherwise it is 0. *)
Theorem cosine_similarity_positive (a b : gmap string Q) :
  map_Forall (λ _ x, 1 <= x ∧ x <= 5) a →
  map_Forall (λ _ x, 1 <= x ∧ x <= 5) b →
  ((2 ≤ size (common_items a b))%nat → (0 < _cosine_similarity a b)%R)
  ∧ ((size (common_items a b) < 2)%nat → _cosine_similarity a b = 0%R).
Proof.
  intros Ha Hb. unfold _cosine_similarity.
  destruct (decide (size (common_items a b) < 2)%nat) as [Hlt|Hge];
    [split; [lia|done]|].
  split; [intros _|lia].
  assert (∃ k, k ∈ common_items a b) as [k Hk].
  { apply set_choose_L. intros E. rewrite E, size_empty in Hge. lia. }
  assert (0 < Q2R (sum_squares a (common_items a b)))%R as H1.
  { rewrite <- RMicromega.Q2R_0. apply Qlt_Rlt.
    apply (sum_squares_pos a _ k Hk). by apply (rating_at_common a b). }
  assert (0 < Q2R (sum_squares b (common_items a b)))%R as H2.
  { rewrite <- RMicromega.Q2R_0. apply Qlt_Rlt.
    apply (sum_squares_pos b _ k Hk). apply (rating_at_common b a); [done|].
    by rewrite (common_items_comm b a). }
  assert (0 < Q2R (dot_product a b))%R as H3.
  { rewrite <- RMicromega.Q2R_0. apply Qlt_Rlt.
    by apply (dot_product_pos a b k). }
  pose proof (sqrt_lt_R0 _ H1) as S1. pose proof (sqrt_lt_R0 _ H2) as S2.
  destruct (Req_dec_T _ 0) as [E|_]; [Lra.lra|].
  destruct (Req_dec_T _ 0) as [E|_]; [Lra.lra|].
  apply Rdiv_lt_0_compat; [exact H3|]. by apply Rmult_lt_0_compat.
Qed.

Lemma cosine_similarity_positive_witness :
  (map_Forall (λ _ x, 1 <= x ∧ x <= 5) ratings_u1
   ∧ map_Forall (λ _ x, 1 <= x ∧ x <= 5) ratings_u3
   ∧ (2 ≤ size (common_items ratings_u1 ratings_u3))%nat)
  ∧ (0 < _cosine_similarity ratings_u1 ratings_u3)%R.
Proof.
  assert (map_Forall (λ _ x, 1 <= x ∧ x <= 5) ratings_u1) as H1.
  { unfold ratings_u1. repeat apply map_Forall_insert_2;
      try apply map_Forall_empty; split; discriminate. }
  assert (map_Forall (λ _ x, 1 <= x ∧ x <= 5) ratings_u3) as H3.
  { unfold ratings_u3. repeat apply map_Forall_insert_2;
      try apply map_Forall_empty; split; discriminate. }
  assert (2 ≤ size (common_items ratings_u1 ratings_u3))%nat as Hs.
  { vm_compute. lia. }
  split; [done|].
  exact (proj1 (cosine_similarity_positive ratings_u1 ratings_u3 H1 H3) Hs).
Defined.

End SimilarityMore.

(** * Further properties of the recommender *)

Section SortedFacts.
Context {A : Type} (geb : A → A → bool).
Hypothesis geb_total : ∀ x y, geb x y = false → geb y x = true.
Hypothesis geb_trans :
  ∀ x y z, geb x y = true → geb y z = true → geb x z = true.

Lemma insert_desc_sorted x l :
  StronglySorted (λ a b, geb a b = true) l →
  StronglySorted (λ a b, geb a b = true) (insert_desc geb x l).
Proof.
  induction 1 as [|y l Hl IH Hy]; simpl.
  - apply SSorted_cons; [apply SSorted_nil|apply Forall_nil_2].
  - destruct (geb x y) eqn:E.
    + apply SSorted_cons; [by apply SSorted_cons|].
      apply Forall_cons. split; [done|].
      eapply Forall_impl; [exact Hy|]. intros z Hz. by eapply geb_trans.
    + apply SSorted_cons; [exact IH|].
      rewrite insert_desc_perm. apply Forall_cons. split; [|done].
      by apply geb_total.
Qed.

Lemma sort_desc_sorted l :
  StronglySorted (λ a b, geb a b = true) (sort_desc geb l).
Proof.
  induction l as [|x l IH]; simpl; [apply SSorted_nil|].
  by apply insert_desc_sorted.
Qed.

End SortedFacts.

Lemma StronglySorted_take {A} (R : A → A → Prop) n l :
  StronglySorted R l → StronglySorted R (take n l).
Proof.
  intros H. revert n. induction H as [|x l Hl IH Hx]; intros [|n]; simpl;
    try apply SSorted_nil.
  apply SSorted_cons; [apply IH|].
  apply Forall_forall. intros y Hy. apply elem_of_take_inv in Hy.
  by eapply Forall_forall in Hx.
Qed.

Lemma StronglySorted_weaken {A} (R1 R2 : A → A → Prop) l :
  (∀ a b, R1 a b → R2 a b) → StronglySorted R1 l → StronglySorted R2 l.
Proof.
  intros HR. induction 1 as [|x l Hl IH Hx]; [apply SSorted_nil|].
  apply SSorted_cons; [exact IH|]. eapply Forall_impl; [exact Hx|]. apply HR.
Qed.

Lemma StronglySorted_fmap {A B} (f : A → B) (R : B → B → Prop) l :
  StronglySorted (λ a b, R (f a) (f b)) l → StronglySorted R (f <$> l).
Proof.
  induction 1 as [|x l Hl IH Hx]; simpl; [apply SSorted_nil|].
  apply SSorted_cons; [exact IH|]. by apply Forall_fmap.
Qed.

Section SimilarUsersFacts.
Import Store Similarity Recommender Samples.

Lemma similarity_geb_total a b :
  similarity_geb a b = false → similarity_geb b a = true.
Proof.
  unfold similarity_geb. intros H%bool_decide_eq_false.
  apply bool_decide_eq_true. Lra.lra.
Qed.

Lemma similarity_geb_trans a b c :
  similarity_geb a b = true → similarity_geb b c = true →
  similarity_geb a c = true.
Proof.
  unfold similarity_geb. intros H1%bool_decide_eq_true H2%bool_decide_eq_true.
  apply bool_decide_eq_true. Lra.lra.
Qed.

(** The dict comprehension [{r["resource_id"]: r["rating"] for r in
    rows}], read through its lookups. *)
Lemma foldl_insert_lookup (rows : list (string * Q)) (m : gmap string Q) rid x :
  foldl (λ m p, <[p.1 := p.2]> m) m rows !! rid = Some x →
  (rid, x) ∈ rows ∨ m !! rid = Some x.
Proof.
  revert m. induction rows as [|[k v] rows IH]; intros m H; [by right|].
  simpl in H. apply IH in H as [H|H]; [left; by apply elem_of_cons; right|].
  destruct (decide (k = rid)) as [->|Hk].
  - rewrite lookup_insert_eq in H. injection H as ->. left. apply elem_of_cons.
    by left.
  - rewrite lookup_insert_ne in H by done. by right.
Qed.

Lemma foldl_insert_is_Some (rows : list (string * Q)) (m : gmap string Q) rid :
  rid ∈ rows.*1 ∨ is_Some (m !! rid) →
  is_Some (foldl (λ m p, <[p.1 := p.2]> m) m rows !! rid).
Proof.
  revert m. induction rows as [|[k v] rows IH]; intros m H.
  - destruct H as [H|H]; [by apply elem_of_nil in H|done].
  - simpl. apply IH. rewrite fmap_cons in H. simpl in H.
    destruct H as [H|H].
    + apply elem_of_cons in H as [-> | H]; [right|by left].
      rewrite lookup_insert_eq. by eexists.
    + right. destruct (decide (k = rid)) as [->|Hk].
      * rewrite lookup_insert_eq. by eexists.
      * by rewrite lookup_insert_ne.
Qed.

Lemma foldl_insert_absent (rows : list (string * Q)) (m : gmap string Q) rid :
  rid ∉ rows.*1 →
  foldl (λ m p, <[p.1 := p.2]> m) m rows !! rid = m !! rid.
Proof.
  revert m. induction rows as [|[k v] rows IH]; intros m H; [done|].
  rewrite fmap_cons in H. simpl in H. apply not_elem_of_cons in H as [Hk H].
  simpl. rewrite IH by done. by rewrite lookup_insert_ne.
Qed.

Lemma foldl_insert_unique (rows : list (string * Q)) (m : gmap string Q) rid x :
  NoDup rows.*1 → (rid, x) ∈ rows →
  foldl (λ m p, <[p.1 := p.2]> m) m rows !! rid = Some x.
Proof.
  revert m. induction rows as [|[k v] rows IH]; intros m Hnd Hin.
  - by apply elem_of_nil in Hin.
  - rewrite fmap_cons in Hnd. simpl in Hnd.
    apply NoDup_cons in Hnd as [Hk Hnd]. simpl.
    apply elem_of_cons in Hin as [Heq|Hin].
    + injection Heq as -> ->. rewrite foldl_insert_absent by done.
      by rewrite lookup_insert_eq.
    + by apply IH.
Qed.

(** Among rows with distinct (user, resource) keys, the rows of one user
    have distinct resources. *)
Lemma unique_keys_resources other (l : list Rating) :
  unique_keys l →
  NoDup (resource_id <$> filter (λ r, user_id r = other) l).
Proof.
  unfold unique_keys.
  induction l as [|r l IH]; intros Hnd; [apply NoDup_nil_2|].
  rewrite fmap_cons in Hnd. apply NoDup_cons in Hnd as [Hr Hnd].
  rewrite filter_cons. destruct (decide (user_id r = other)) as [Hu|Hu];
    [|by apply IH].
  rewrite fmap_cons. apply NoDup_cons. split; [|by apply IH].
  intros Hin. apply list_elem_of_fmap in Hin as (r' & Hrid & Hr').
  apply list_elem_of_filter in Hr' as [Hu' Hr']. apply Hr.
  apply list_elem_of_fmap. exists r'. split; [|done].
  unfold key_of. by rewrite Hrid, Hu, Hu'.
Qed.

(** X10.  [_find_similar_users] returns at most 10 users, never the
    target user and no user twice; the rating map of a returned user is
    built from that user's own rows and from no others, with one entry
    for each resource the user rated (the rating itself when the rows
    have distinct (user, resource) keys); every returned similarity is
    the cosine similarity of the target's rating map with that user's
    map and exceeds 0.3; and the list is in descending order of
    similarity. *)
Theorem find_similar_users_sound d uid rows :
  let found := _find_similar_users d uid rows in
  (length found ≤ 10)%nat
  ∧ NoDup (su_user_id <$> found)
  ∧ StronglySorted (λ a b, (similarity b <= similarity a)%R) found
  ∧ ∀ su, su ∈ found →
      su_user_id su ≠ uid
      ∧ (∃ row, row ∈ user_ratings d ∧ user_id row = su_user_id su)
      ∧ similarity su
        = _cosine_similarity (rating_map (fst <$> rows)) (su_ratings su)
      ∧ (3 / 10 < similarity su)%R
      ∧ (∀ rid x, su_ratings su !! rid = Some x →
           ∃ row, row ∈ user_ratings d ∧ user_id row = su_user_id su
                  ∧ resource_id row = rid ∧ rating row = x)
      ∧ (∀ row, row ∈ user_ratings d → user_id row = su_user_id su →
           is_Some (su_ratings su !! resource_id row))
      ∧ (unique_keys (user_ratings d) →
         ∀ row, row ∈ user_ratings d → user_id row = su_user_id su →
           su_ratings su !! resource_id row = Some (rating row)).
Proof.
  unfold _find_similar_users. cbv zeta.
  set (others := filter (λ r, user_id r ≠ uid) (user_ratings d)).
  set (mk := λ other, mkSimilar other _ _).
  set (candidates := mk <$> remove_dups (user_id <$> others)).
  split; [rewrite length_take; lia|]. split; [|split].
  - eapply sublist_NoDup; [|apply fmap_sublist, sublist_take].
    rewrite sort_desc_perm.
    eapply sublist_NoDup; [|apply fmap_sublist, sublist_filter].
    unfold candidates. rewrite <- list_fmap_compose.
    assert (∀ l, (su_user_id ∘ mk) <$> l = l) as ->.
    { induction l as [|x l IH]; [done|]. by rewrite fmap_cons, IH. }
    apply NoDup_remove_dups.
  - apply StronglySorted_take.
    eapply StronglySorted_weaken;
      [|apply (sort_desc_sorted similarity_geb similarity_geb_total
                 similarity_geb_trans)].
    intros a b H. by apply bool_decide_eq_true in H.
  - intros su Hsu.
    apply elem_of_take_inv, elem_of_sort_desc, list_elem_of_filter in Hsu
      as [Hsim Hsu].
    apply list_elem_of_fmap in Hsu as (other & -> & Hother).
    apply elem_of_remove_dups, list_elem_of_fmap in Hother
      as (row & -> & Hrow).
    apply list_elem_of_filter in Hrow as [Hne Hrow]. cbn [su_user_id mk].
    split; [done|]. split; [by exists row|]. split; [done|].
    split; [done|]. unfold mk. cbn [su_ratings].
    unfold rating_map, pushed_ratings.
    set (mine := filter (λ r, user_id r = user_id row) others).
    assert (∀ r, r ∈ mine ↔ r ∈ user_ratings d ∧ user_id r = user_id row)
      as Hmine.
    { intros r. unfold mine, others. rewrite !list_elem_of_filter.
      split; [tauto|]. intros [Hin Hu]. rewrite Hu. tauto. }
    split; [|split].
    + intros rid x Hx. apply foldl_insert_lookup in Hx as [Hx|Hx].
      * apply list_elem_of_fmap in Hx as (r & Heq & Hr).
        injection Heq as -> ->. apply Hmine in Hr as [Hin Hu].
        by exists r.
      * by rewrite lookup_empty in Hx.
    + intros r Hin Hu. apply foldl_insert_is_Some. left.
      rewrite <- list_fmap_compose. apply list_elem_of_fmap.
      exists r. split; [done|]. apply Hmine. by split.
    + intros Huniq r Hin Hu. apply foldl_insert_unique.
      * rewrite <- list_fmap_compose.
        apply (unique_keys_resources (user_id row) others).
        unfold unique_keys, others.
        eapply sublist_NoDup; [exact Huniq|].
        apply fmap_sublist, sublist_filter.
      * apply list_elem_of_fmap. exists r. split; [done|].
        apply Hmine. by split.
Qed.

End SimilarUsersFacts.

Section CollaborativeFacts.
Import Store Similarity Recommender Samples.

Lemma bump_NoDup rid w scores : NoDup scores.*1 → NoDup (bump rid w scores).*1.
Proof.
  induction scores as [|[k [s c]] rest IH]; simpl.
  - intros _. apply NoDup_singleton.
  - rewrite NoDup_cons. intros [Hk Hrest].
    destruct (decide (k = rid)); simpl; apply NoDup_cons.
    + done.
    + split; [|by apply IH].
      intros Hin. apply bump_keys in Hin as [->|Hin]; done.
Qed.

Lemma accumulate_user_NoDup rated scores user :
  NoDup scores.*1 → NoDup (accumulate_user rated scores user).*1.
Proof.
  unfold accumulate_user. generalize (map_to_list (su_ratings user)).
  intros items. revert scores.
  induction items as [|p items IH]; intros scores Hs; simpl; [done|].
  apply IH. destruct (bool_decide (p.1 ∉ rated) && Qle_bool 4 p.2); [|done].
  by apply bump_NoDup.
Qed.

Lemma resource_scores_NoDup rated users scores :
  NoDup scores.*1 → NoDup (foldl (accumulate_user rated) scores users).*1.
Proof.
  revert scores. induction users as [|u users IH]; intros scores Hs; simpl;
    [done|].
  by apply IH, accumulate_user_NoDup.
Qed.

(** Every key of the score table was rated 4 or more by one of the
    users that were folded in. *)
Lemma accumulate_user_endorsed (P : string → Prop) rated scores user :
  (∀ k, k ∈ scores.*1 → P k) →
  (∀ k x, su_ratings user !! k = Some x → 4 <= x → P k) →
  ∀ k, k ∈ (accumulate_user rated scores user).*1 → P k.
Proof.
  unfold accumulate_user. intros Hs Hu.
  assert (∀ p, p ∈ map_to_list (su_ratings user) →
               su_ratings user !! p.1 = Some p.2) as Hitems.
  { intros [k x]. apply elem_of_map_to_list. }
  revert Hitems. generalize (map_to_list (su_ratings user)).
  intros items. revert scores Hs.
  induction items as [|p items IH]; intros scores Hs Hitems; simpl; [done|].
  apply IH.
  - destruct (bool_decide (p.1 ∉ rated)); simpl; [|done].
    destruct (Qle_bool 4 p.2) eqn:E; [|done].
    intros k Hk. apply bump_keys in Hk as [->|Hk]; [|by apply Hs].
    apply (Hu _ p.2); [apply Hitems, list_elem_of_here|by apply Qle_bool_iff].
  - intros q Hq. by apply Hitems, list_elem_of_further.
Qed.

Lemma resource_scores_endorsed rated users scores :
  ∀ k, k ∈ (foldl (accumulate_user rated) scores users).*1 →
       k ∈ scores.*1
       ∨ ∃ user x, user ∈ users ∧ su_ratings user !! k = Some x ∧ 4 <= x.
Proof.
  revert scores. induction users as [|u users IH]; intros scores k; simpl;
    [by left|].
  intros Hk. apply IH in Hk as [Hk|(user & x & Hin & Hx)].
  - revert k Hk.
    apply (accumulate_user_endorsed
             (λ k, k ∈ scores.*1
                   ∨ ∃ user x, user ∈ u :: users
                               ∧ su_ratings user !! k = Some x ∧ 4 <= x)).
    + by left.
    + intros k x Hx H4. right. exists u, x. split; [apply list_elem_of_here|done].
  - right. exists user, x. split; [by apply list_elem_of_further|done].
Qed.

Lemma omap_keys_NoDup {A} (F : string * A → option Rec) (l : list (string * A)) :
  (∀ p r, F p = Some r → rec_id r = p.1) →
  NoDup l.*1 → NoDup (rec_id <$> omap F l).
Proof.
  intros HF. induction l as [|p l IH]; simpl; [intros _; apply NoDup_nil_2|].
  rewrite NoDup_cons. intros [Hp Hl].
  destruct (F p) as [r|] eqn:E; [|by apply IH].
  simpl. apply NoDup_cons. split; [|by apply IH].
  rewrite (HF p r E). intros Hin. apply Hp.
  apply list_elem_of_fmap in Hin as (r' & Hid & Hr').
  apply list_elem_of_omap in Hr' as (q & Hq & Fq).
  apply list_elem_of_fmap. exists q. split; [|done].
  by rewrite Hid, (HF q r' Fq).
Qed.

(** X11.  Every collaborative recommendation is a resource of the
    store that the user has not rated and that at least one of the
    similar users rated 4 or higher; with a module filter it belongs to
    that module; it is tagged "collaborative"; and no resource id is
    recommended twice. *)
Theorem collaborative_recommendations_sound d users rated mid :
  let recs := _get_collaborative_recommendations d users rated mid in
  NoDup (rec_id <$> recs)
  ∧ ∀ r, r ∈ recs →
      (rec_id r ∉ rated)
      ∧ recommendation_type r = Some "collaborative"%string
      ∧ (∃ user x, user ∈ users
                   ∧ su_ratings user !! rec_id r = Some x ∧ 4 <= x)
      ∧ (∃ res, find_one (rec_id r) (resources d) = Some res
                ∧ (truthy mid = true → res_module_id res = mid)).
Proof.
  cbv zeta. split.
  - unfold _get_collaborative_recommendations. apply omap_keys_NoDup.
    + intros [rid [score count]] r. simpl.
      destruct (find_one rid (resources d)) as [res|] eqn:E; [|done].
      destruct (truthy mid && negb (bool_decide (res_module_id res = mid)));
        [done|].
      intros [= <-]. simpl. by apply find_one_Some in E as [? _].
    + apply resource_scores_NoDup. apply NoDup_nil_2.
  - intros r Hr. split; [by eapply collaborative_not_rated|].
    unfold _get_collaborative_recommendations in Hr.
    apply list_elem_of_omap in Hr as ([rid [score count]] & Hin & Hr).
    destruct (find_one rid (resources d)) as [res|] eqn:E; [|done].
    destruct (truthy mid && negb (bool_decide (res_module_id res = mid)))
      eqn:Em; [done|].
    injection Hr as <-. simpl.
    pose proof (find_one_Some _ _ _ E) as [Hid _]. rewrite Hid.
    split; [done|]. split.
    + assert (rid ∈ (foldl (accumulate_user rated) [] users).*1) as Hk.
      { apply list_elem_of_fmap. by exists (rid, (score, count)). }
      apply resource_scores_endorsed in Hk as [Hk|Hk]; [|done].
      by apply elem_of_nil in Hk.
    + exists res. split; [done|]. intros Ht. rewrite Ht in Em. simpl in Em.
      apply negb_false_iff in Em. by apply bool_decide_eq_true in Em.
Qed.

Lemma average_geb_total a b : average_geb a b = false → average_geb b a = true.
Proof.
  unfold average_geb.
  destruct (average_rating a) as [x|], (average_rating b) as [y|]; try done.
  intros H. apply Qle_bool_iff. apply Qlt_le_weak, Qnot_le_lt.
  intros Hle. apply Qle_bool_iff in Hle. congruence.
Qed.

Lemma average_geb_trans a b c :
  average_geb a b = true → average_geb b c = true → average_geb a c = true.
Proof.
  unfold average_geb.
  destruct (average_rating a) as [x|], (average_rating b) as [y|],
    (average_rating c) as [z|]; try done.
  rewrite !Qle_bool_iff. intros H1 H2. exact (Qle_trans _ _ _ H2 H1).
Qed.

(** X12.  The content-based recommendations are at most 10 resources
    of the requested module that the user has not rated, in descending
    order of stored average rating (documents without an average last),
    each scored with 0.8 times its stored average and tagged
    "content". *)
Theorem content_recommendations_sound d mid rated :
  let recs := _get_content_based_recommendations d mid rated in
  (length recs ≤ 10)%nat
  ∧ ((∀ res x, res ∈ resources d → average_rating res = Some x → 0 <= x) →
     StronglySorted (λ a b, rec_average_rating b <= rec_average_rating a) recs)
  ∧ ∀ r, r ∈ recs →
      (rec_id r ∉ rated)
      ∧ recommendation_type r = Some "content"%string
      ∧ recommendation_score r = Some (Q2R (rec_average_rating r * (8 # 10)))
      ∧ ∃ res, res ∈ resources d ∧ res_id res = rec_id r
               ∧ res_module_id res = mid
               ∧ rec_average_rating r = default 0 (average_rating res).
Proof.
  cbv zeta. unfold _get_content_based_recommendations.
  split; [rewrite length_fmap, length_take; lia|]. split.
  - intros Hnonneg. apply StronglySorted_fmap, StronglySorted_take.
    set (sorted := sort_desc average_geb _).
    assert (∀ res x, res ∈ sorted → average_rating res = Some x → 0 <= x)
      as Hpos.
    { intros res x Hres. apply elem_of_sort_desc, list_elem_of_filter in Hres
        as [_ Hres]. by apply Hnonneg. }
    pose proof (sort_desc_sorted average_geb average_geb_total
                  average_geb_trans
                  (filter (λ r, res_module_id r = mid ∧ res_id r ∉ rated)
                     (resources d))) as Hsorted.
    fold sorted in Hsorted. clearbody sorted.
    induction Hsorted as [|a l Hl IH Ha]; [apply SSorted_nil|].
    apply SSorted_cons.
    + apply IH. intros res x Hres. by apply Hpos, list_elem_of_further.
    + apply Forall_forall. intros b Hb.
      pose proof (proj1 (Forall_forall _ _) Ha b Hb) as Hab.
      unfold average_geb in Hab. simpl.
      destruct (average_rating a) as [x|] eqn:Ea,
               (average_rating b) as [y|] eqn:Eb; simpl; try done.
      * by apply Qle_bool_iff.
      * apply (Hpos a x); [apply list_elem_of_here|done].
  - intros r Hr. apply list_elem_of_fmap in Hr as (res & -> & Hres).
    apply elem_of_take_inv, elem_of_sort_desc, list_elem_of_filter in Hres
      as [[Hm Hid] Hin].
    simpl. repeat split; try done. by exists res.
Qed.

End CollaborativeFacts.

Section RecommendMore.
Import Store Similarity Recommender TopRated Samples.

Lemma score_geb_total a b : score_geb a b = false → score_geb b a = true.
Proof.
  unfold score_geb. intros H%bool_decide_eq_false.
  apply bool_decide_eq_true. Lra.lra.
Qed.

Lemma score_geb_trans a b c :
  score_geb a b = true → score_geb b c = true → score_geb a c = true.
Proof.
  unfold score_geb. intros H1%bool_decide_eq_true H2%bool_decide_eq_true.
  apply bool_decide_eq_true. Lra.lra.
Qed.

Lemma py_slice_length {A} (limit : Z) (l : list A) :
  (0 ≤ limit)%Z → (length (py_slice limit l) ≤ Z.to_nat limit)%nat.
Proof.
  intros H. unfold py_slice.
  assert ((0 <=? limit)%Z = true) as -> by by apply Z.leb_le.
  rewrite length_take. lia.
Qed.

(** X13.  The list of [get_recommendations_for_user] is in descending
    order of [recommendation_score] (a missing score counts as 0), has
    at most [limit] entries for a non-negative [limit], and is empty
    when the database is not connected. *)
Theorem recommendations_ranked db now uid mid limit :
  let recs := get_recommendations_for_user db now uid mid limit in
  StronglySorted (λ a b, (score_key b <= score_key a)%R) recs
  ∧ ((0 ≤ limit)%Z → (length recs ≤ Z.to_nat limit)%nat)
  ∧ (db = None → recs = []).
Proof.
  cbv zeta. destruct db as [d|]; unfold get_recommendations_for_user; cbv zeta.
  2:{ split; [apply SSorted_nil|]. split; [simpl; lia|done]. }
  split; [|split; [apply py_slice_length|done]].
  unfold py_slice. destruct (0 <=? limit)%Z; apply StronglySorted_take;
    (eapply StronglySorted_weaken;
      [|apply (sort_desc_sorted score_geb score_geb_total score_geb_trans)]);
    intros a b H; by apply bool_decide_eq_true in H.
Qed.

(** X14.  A user with fewer than 3 ratings who asks without a module
    gets trending resources only: every entry is tagged "trending",
    carries no recommendation score, and its ratings of the last week
    average at least 3.5. *)
Theorem recommendations_cold_start d now uid mid limit r :
  (length (get_user_ratings (Some d) uid) < 3)%nat →
  truthy mid = false →
  r ∈ get_recommendations_for_user (Some d) now uid mid limit →
  recommendation_type r = Some "trending"%string
  ∧ recommendation_score r = None
  ∧ 35 # 10 <= mean (ratings_of (rec_id r) (recent_rows now (user_ratings d))).
Proof.
  intros Hfew Hmid Hr. unfold get_recommendations_for_user in Hr.
  cbv zeta in Hr. rewrite Hmid in Hr.
  assert ((3 <=? length (get_user_ratings (Some d) uid))%nat = false) as E
    by (apply Nat.leb_gt; lia).
  rewrite E in Hr. simpl app in Hr.
  eapply elem_of_sublist in Hr; [|apply py_slice_sublist].
  apply elem_of_sort_desc, dedupe_elem_of in Hr.
  apply list_elem_of_fmap in Hr as (t & -> & Ht).
  apply list_elem_of_filter in Ht as [_ Ht].
  pose proof (trending_quality_floor _ _ _ _ _ Ht) as [_ Hfloor].
  simpl in Ht. apply list_elem_of_fmap in Ht as (res & -> & _).
  by repeat split.
Qed.

Lemma recommendations_cold_start_witness :
  let r := mark_trending (trending_dict resource_a) in
  ((length (get_user_ratings (Some busy_store) "u1") < 3)%nat
   ∧ truthy None = false
   ∧ r ∈ get_recommendations_for_user (Some busy_store) 5000 "u1" None 10)
  ∧ recommendation_type r = Some "trending"%string
  ∧ recommendation_score r = None
  ∧ 35 # 10 <= mean (ratings_of (rec_id r)
                       (recent_rows 5000 (user_ratings busy_store))).
Proof.
  intros r.
  assert (length (get_user_ratings (Some busy_store) "u1") < 3)%nat as H1
    by (vm_compute; lia).
  assert (r ∈ get_recommendations_for_user (Some busy_store) 5000 "u1" None 10)
    as H3.
  { assert (get_recommendations_for_user (Some busy_store) 5000 "u1" None 10
            = [r]) as -> by (by vm_compute).
    apply list_elem_of_here. }
  split; [done|].
  exact (recommendations_cold_start busy_store 5000 "u1" None 10 r H1 eq_refl H3).
Defined.

(** X15.  [get_trending_resources] returns at most [limit] entries;
    each is a resource of the store (of the requested module, when one
    is given) that has at least one rating of the last 7 days and whose
    ratings of the last 7 days average at least 3.5. *)
Theorem trending_resources_sound d now mid limit :
  let recs := get_trending_resources (Some d) now mid limit in
  (length recs ≤ Pos.to_nat limit)%nat
  ∧ ∀ r, r ∈ recs →
      ratings_of (rec_id r) (recent_rows now (user_ratings d)) ≠ []
      ∧ 35 # 10 <= mean (ratings_of (rec_id r)
                           (recent_rows now (user_ratings d)))
      ∧ ∃ res, res ∈ resources d ∧ res_id res = rec_id r
               ∧ (truthy mid = true → res_module_id res = mid).
Proof.
  cbv zeta. split; [apply trending_at_most_limit|].
  intros r Hr. pose proof (trending_quality_floor _ _ _ _ _ Hr) as [Hne Hfloor].
  split; [done|]. split; [done|].
  simpl in Hr. apply list_elem_of_fmap in Hr as (res & -> & Hres).
  apply elem_of_take_inv, list_elem_of_filter in Hres as [[_ Hm] Hin].
  by exists res.
Qed.

(** X16.  Ratings older than 7 days have no influence on
    [get_trending_resources]: two stores with the same resources whose
    rating rows of the last 7 days agree give the same result. *)
Theorem trending_ignores_old_ratings rows1 rows2 docs now mid limit :
  recent_rows now rows1 = recent_rows now rows2 →
  get_trending_resources (Some (mkDB rows1 docs)) now mid limit
  = get_trending_resources (Some (mkDB rows2 docs)) now mid limit.
Proof.
  intros H. simpl.
  by rewrite (trending_ids_recent now limit rows1),
             (trending_ids_recent now limit rows2), H.
Qed.

Lemma trending_ignores_old_ratings_witness :
  let old := mkRating "u9" "resA" None 1 (5000 - week - 1) 0 in
  recent_rows 5000 (old :: user_ratings busy_store)
    = recent_rows 5000 (user_ratings busy_store)
  ∧ get_trending_resources
      (Some (mkDB (old :: user_ratings busy_store) (resources busy_store)))
      5000 None 10
    = get_trending_resources
        (Some (mkDB (user_ratings busy_store) (resources busy_store)))
        5000 None 10.
Proof.
  intros old.
  assert (recent_rows 5000 (old :: user_ratings busy_store)
          = recent_rows 5000 (user_ratings busy_store)) as H by (by vm_compute).
  split; [exact H|].
  exact (trending_ignores_old_ratings _ _ (resources busy_store) 5000 None 10 H).
Defined.

End RecommendMore.

(** * Top rated resources and the rating endpoint *)

Section TopRatedFacts.
Import Store Recommender TopRated Samples.

Lemma Qltb_false (a b : Q) : Qltb a b = false ↔ b <= a.
Proof.
  unfold Qltb. rewrite negb_false_iff. apply Qle_bool_iff.
Qed.

Lemma Qltb_strict : StrictKey Qltb.
Proof.
  split; intros *; rewrite ?Qltb_lt, ?Qltb_false; lra.
Qed.

Lemma ltb_strict : StrictKey Nat.ltb.
Proof.
  split; intros *; rewrite ?Nat.ltb_lt, ?Nat.ltb_ge; lia.
Qed.

Lemma opt_ltb_strict {A} (ltb : A → A → bool) :
  StrictKey ltb → StrictKey (opt_ltb ltb).
Proof.
  intros [H1 H2 H3 H4 H5]. split.
  - intros [x|] [y|]; simpl; eauto.
  - intros [x|] [y|] [z|]; simpl; eauto; done.
  - intros [x|] [y|] [z|]; simpl; eauto; done.
  - intros [x|] [y|] [z|]; simpl; eauto; done.
  - intros [x|] [y|] [z|]; simpl; eauto; done.
Qed.

Lemma top_rated_geb_total a b :
  top_rated_geb a b = false → top_rated_geb b a = true.
Proof.
  pose proof (opt_ltb_strict _ Qltb_strict) as [Q1 _ _ _ _].
  pose proof (opt_ltb_strict _ ltb_strict) as [N1 _ _ _ _].
  unfold top_rated_geb. intros H. apply orb_false_iff in H as [Hlt H].
  apply orb_true_iff.
  destruct (opt_ltb Qltb (average_rating a) (average_rating b)) eqn:E;
    [by left|right].
  simpl in H. apply negb_false_iff in H. rewrite Hlt. simpl.
  by rewrite (N1 _ _ H).
Qed.

Lemma top_rated_geb_trans a b c :
  top_rated_geb a b = true → top_rated_geb b c = true →
  top_rated_geb a c = true.
Proof.
  pose proof (opt_ltb_strict _ Qltb_strict) as [_ Q2 Q3 Q4 Q5].
  pose proof (opt_ltb_strict _ ltb_strict) as [_ _ _ _ N5].
  unfold top_rated_geb. rewrite !orb_true_iff, !andb_true_iff, !negb_true_iff.
  intros [Hab|[Hab Cab]] [Hbc|[Hbc Cbc]].
  - left. by eapply Q2.
  - left. by eapply Q3.
  - left. by eapply Q4.
  - right. split; [by eapply Q5|by eapply N5].
Qed.

(** X17.  [get_top_rated_resources] only returns resources with a
    stored [rating_count] of at least 3 (of the requested module, when
    one is given).  Provided every document has a stored average they
    are ordered by average rating, highest first, and by rating count
    among equal averages.  A positive [limit] caps the length;
    [limit = 0] returns every matching resource. *)
Theorem top_rated_sound d mid limit :
  let recs := get_top_rated_resources (Some d) mid limit in
  let matching := filter (top_rated_query mid) (resources d) in
  ((0 < limit)%Z → (length recs ≤ Z.to_nat limit)%nat)
  ∧ (limit = 0%Z → length recs = length matching)
  ∧ ((∀ res, res ∈ resources d → is_Some (average_rating res)) →
     StronglySorted
       (λ a b, rec_average_rating b < rec_average_rating a
               ∨ (rec_average_rating b == rec_average_rating a
                  ∧ (rec_rating_count b ≤ rec_rating_count a)%nat))
       recs)
  ∧ ∀ r, r ∈ recs →
      (3 ≤ rec_rating_count r)%nat
      ∧ ∃ res, res ∈ resources d ∧ res_id res = rec_id r
               ∧ rating_count res = Some (rec_rating_count r)
               ∧ (truthy mid = true → res_module_id res = mid).
Proof.
  cbv zeta. unfold get_top_rated_resources, cursor_limit.
  split; [|split; [|split]].
  - intros Hpos. assert ((limit =? 0)%Z = false) as -> by (apply Z.eqb_neq; lia).
    rewrite length_fmap, length_take. lia.
  - intros ->. simpl. rewrite length_fmap. by rewrite sort_desc_perm.
  - intros Havg. apply StronglySorted_fmap.
    set (sorted := sort_desc top_rated_geb _).
    assert (StronglySorted (λ a b, top_rated_geb a b = true) sorted) as Hs.
    { apply sort_desc_sorted;
        [apply top_rated_geb_total|apply top_rated_geb_trans]. }
    assert (∀ res, res ∈ sorted →
              is_Some (average_rating res) ∧ is_Some (rating_count res))
      as Hsome.
    { intros res Hres.
      apply elem_of_sort_desc, list_elem_of_filter in Hres as [[Hc _] Hin].
      split; [by apply Havg|]. by destruct (rating_count res). }
    assert (StronglySorted
              (λ a b, rec_average_rating (trending_dict b)
                        < rec_average_rating (trending_dict a)
                      ∨ (rec_average_rating (trending_dict b)
                           == rec_average_rating (trending_dict a)
                         ∧ (rec_rating_count (trending_dict b)
                              ≤ rec_rating_count (trending_dict a))%nat))
              sorted) as Hgoal.
    { clearbody sorted. induction Hs as [|a l Hl IH Ha]; [apply SSorted_nil|].
      apply SSorted_cons.
      - apply IH. intros res Hres. by apply Hsome, list_elem_of_further.
      - apply Forall_forall. intros b Hb.
        pose proof (proj1 (Forall_forall _ _) Ha b Hb) as Hab.
        destruct (Hsome a (list_elem_of_here _ _)) as [[x Ex] [n En]].
        destruct (Hsome b (list_elem_of_further _ _ _ Hb)) as [[y Ey] [m Em]].
        unfold top_rated_geb in Hab. simpl. rewrite Ex, Ey, En, Em in *.
        simpl in *. apply orb_true_iff in Hab as [Hlt|Heq].
        + left. by apply Qltb_lt.
        + apply andb_true_iff in Heq as [Hq Hn].
          apply negb_true_iff in Hq, Hn.
          apply Qltb_false in Hq. apply Nat.ltb_ge in Hn.
          destruct (Qlt_le_dec y x); [by left|right].
          split; [lra|done]. }
    destruct (limit =? 0)%Z; [done|]. by apply StronglySorted_take.
  - intros r Hr. apply list_elem_of_fmap in Hr as (res & -> & Hres).
    assert (res ∈ sort_desc top_rated_geb
                    (filter (top_rated_query mid) (resources d))) as Hin.
    { destruct (limit =? 0)%Z; [done|]. by apply elem_of_take_inv in Hres. }
    apply elem_of_sort_desc, list_elem_of_filter in Hin as [[Hc Hm] Hin].
    simpl. destruct (rating_count res) as [c|] eqn:E; [|done]. simpl.
    split; [done|]. by exists res.
Qed.

Lemma top_rated_sound_witness :
  let recs := get_top_rated_resources (Some shelf) None 1 in
  ((0 < 1)%Z ∧ trending_dict resource_d ∈ recs)
  ∧ (length recs ≤ Z.to_nat 1)%nat
  ∧ (3 ≤ rec_rating_count (trending_dict resource_d))%nat.
Proof.
  intros recs.
  assert (trending_dict resource_d ∈ recs) as Hin.
  { assert (recs = [trending_dict resource_d]) as -> by (by vm_compute).
    apply list_elem_of_here. }
  destruct (top_rated_sound shelf None 1) as (Hlen & _ & _ & Hall).
  split; [split; [lia|exact Hin]|].
  split; [apply Hlen; lia|]. by destruct (Hall _ Hin).
Defined.

End TopRatedFacts.

Section RouterFacts.
Import Store Router Samples.


End RouterFacts.

(** * Further properties of the study-priority scorer *)

Section ActivityFacts.
Import Scorer Samples.

(** X19.  [_determine_activity] answers "flashcards" exactly when the
    energy is at most 4 or at most 30 minutes are available, "practice"
    exactly when the energy is at least 7 and at least 90 minutes are
    available, "revise" for the remaining requests with at least 60
    minutes and "summary" for the rest; the mood does not enter. *)
Theorem determine_activity_cases mood energy time :
  let activity := _determine_activity mood energy time in
  (activity = "flashcards"%string ↔ (energy ≤ 4 ∨ time ≤ 30)%Z)
  ∧ (activity = "practice"%string ↔ (7 ≤ energy ∧ 90 ≤ time)%Z)
  ∧ (activity = "revise"%string
     ↔ (4 < energy ∧ 60 ≤ time ∧ ¬ (7 ≤ energy ∧ 90 ≤ time))%Z)
  ∧ (activity = "summary"%string ↔ (4 < energy ∧ 30 < time < 60)%Z)
  ∧ ∀ mood', _determine_activity mood' energy time = activity.
Proof.
  cbv zeta. unfold _determine_activity.
  destruct (Z.leb_spec energy 4), (Z.leb_spec time 30),
    (Z.leb_spec 7 energy), (Z.leb_spec 90 time), (Z.leb_spec 60 time);
    simpl; repeat split; intros; try done; try lia.
Qed.

Lemma Qtrunc_scale (b : Z) (n : positive) :
  Qtrunc (inject_Z b * (Zpos n # 10)) = Z.quot (b * Zpos n) 10.
Proof. reflexivity. Qed.

Lemma Qtrunc_one (b : Z) : Qtrunc (inject_Z b * 1) = b.
Proof. unfold Qtrunc. simpl. rewrite Z.mul_1_r. apply Z.quot_1_r. Qed.

(** The five values of the activity multiplier. *)
Lemma activity_multiplier_cases activity :
  activity_multiplier activity = 8 # 10
  ∨ activity_multiplier activity = 9 # 10
  ∨ activity_multiplier activity = 1
  ∨ activity_multiplier activity = 11 # 10.
Proof.
  unfold activity_multiplier.
  repeat (match goal with |- context [String.eqb ?a ?b] =>
            destruct (String.eqb a b) end); tauto.
Qed.

(** X20.  The suggested duration is always a multiple of 5 and at
    least 15 minutes. *)
Theorem calculate_duration_grid time energy activity :
  let duration := _calculate_duration time energy activity in
  (15 ≤ duration)%Z ∧ (duration mod 5 = 0)%Z.
Proof.
  cbv zeta. unfold _calculate_duration.
  set (d := Qtrunc _). split; [lia|].
  destruct (Z.max_spec 15 (d / 5 * 5)) as [ [_ ->] | [_ ->] ]; [|done].
  apply Z_mod_mult.
Qed.

(** X21.  With fewer than 15 minutes available the suggested duration
    is still 15 minutes, more than the time available. *)
Theorem calculate_duration_short_time time energy activity :
  (time < 15)%Z → _calculate_duration time energy activity = 15%Z.
Proof.
  intros Ht. unfold _calculate_duration.
  assert (Z.min time 120 = time) as -> by lia.
  set (base := if (energy <=? 4)%Z then _ else _).
  assert (base ≤ 15)%Z as Hbase.
  { unfold base. destruct (energy <=? 4)%Z; [|destruct (8 <=? energy)%Z].
    - rewrite (Qtrunc_scale time 7). Z.to_euclidean_division_equations. lia.
    - rewrite (Qtrunc_scale time 11). Z.to_euclidean_division_equations. lia.
    - lia. }
  clearbody base.
  destruct (activity_multiplier_cases activity) as [-> | [-> | [-> | ->]]].
  - rewrite (Qtrunc_scale base 8). Z.to_euclidean_division_equations. lia.
  - rewrite (Qtrunc_scale base 9). Z.to_euclidean_division_equations. lia.
  - rewrite Qtrunc_one. Z.to_euclidean_division_equations. lia.
  - rewrite (Qtrunc_scale base 11). Z.to_euclidean_division_equations. lia.
Qed.

Lemma calculate_duration_short_time_witness :
  (5 < 15)%Z ∧ _calculate_duration 5 9 "practice" = 15%Z.
Proof.
  assert (5 < 15)%Z as H by lia. split; [exact H|].
  exact (calculate_duration_short_time 5 9 "practice" H).
Defined.

End ActivityFacts.

Section ScoreFacts.
Import Scorer Samples Stated Variants.

Variable fromisoformat : string → option datetime.
Variable _generate_explanation :
  ModuleInput → string → Z → StudyDecisionRequest → Q → string.

Lemma mood_multiplier_pos mood : 0 < mood_multiplier mood.
Proof.
  unfold mood_multiplier.
  repeat (match goal with |- context [String.eqb ?a ?b] =>
            destruct (String.eqb a b) end); reflexivity.
Qed.

Lemma energy_factor_nonneg (e : Z) : (0 ≤ e)%Z → 0 <= inject_Z e / 10.
Proof.
  intros H. rewrite Zle_Qle in H. change (inject_Z 0) with 0 in H.
  unfold Qdiv. change (/ 10) with (1 # 10). lra.
Qed.

Lemma energy_factor_pos (e : Z) : (0 < e)%Z → 0 < inject_Z e / 10.
Proof.
  intros H. rewrite Zlt_Qlt in H. change (inject_Z 0) with 0 in H.
  unfold Qdiv. change (/ 10) with (1 # 10). lra.
Qed.

Lemma scale_le (x y mm ee : Q) :
  0 < mm → 0 <= ee → x <= y → x * mm * ee <= y * mm * ee.
Proof.
  intros Hm He Hxy. apply Qmult_le_compat_r; [|done].
  apply Qmult_le_compat_r; [done|lra].
Qed.

(** The proximity bonus shrinks as the exam moves away. *)
Lemma bonus_antitone (d1 d2 : Z) :
  (0 < d1 ≤ d2)%Z →
  100 / (1 + inject_Z d2 / 7) <= 100 / (1 + inject_Z d1 / 7).
Proof.
  intros [H0 H12]. rewrite Zlt_Qlt in H0. rewrite Zle_Qle in H12.
  change (inject_Z 0) with 0 in H0.
  set (b1 := 1 + inject_Z d1 / 7). set (b2 := 1 + inject_Z d2 / 7).
  assert (0 < b1) as Hb1.
  { unfold b1, Qdiv. change (/ 7) with (1 # 7). lra. }
  assert (b1 <= b2) as Hb.
  { unfold b1, b2, Qdiv. change (/ 7) with (1 # 7). lra. }
  apply Qle_shift_div_r; [lra|].
  assert (0 <= 100 / b1) as Hq.
  { apply Qle_shift_div_l; [done|lra]. }
  assert (100 == 100 / b1 * b1) as E by (field; lra).
  rewrite E at 1. rewrite (Qmult_comm _ b1), (Qmult_comm _ b2).
  by apply Qmult_le_compat_r.
Qed.

(** X22.  With a positive energy level, a module with less progress
    never scores lower than the same module with more progress. *)
Theorem score_antitone_in_progress now m request p1 p2 :
  (0 < energyLevel request)%Z → (p1 ≤ p2)%Z →
  _calculate_module_score fromisoformat now (with_progress m p2) request
  <= _calculate_module_score fromisoformat now (with_progress m p1) request.
Proof.
  intros He Hp. unfold _calculate_module_score, with_progress. simpl.
  set (X := if truthy (examDate m) then _ else _).
  apply scale_le;
    [apply mood_multiplier_pos|by apply Qlt_le_weak, energy_factor_pos|].
  assert (inject_Z (100 - p2) <= inject_Z (100 - p1)) as H.
  { rewrite <- Zle_Qle. lia. }
  lra.
Qed.

(** X23.  With a positive energy level, of two exam dates that both
    lie at least one full day ahead the nearer one never gives the
    lower score. *)
Theorem score_antitone_in_exam_distance now m request exam1 exam2 d1 d2 :
  (0 < energyLevel request)%Z →
  exam1 ≠ ""%string → exam2 ≠ ""%string →
  days_until_exam fromisoformat now exam1 = Some d1 →
  days_until_exam fromisoformat now exam2 = Some d2 →
  (0 < d1 ≤ d2)%Z →
  _calculate_module_score fromisoformat now (with_exam m exam2) request
  <= _calculate_module_score fromisoformat now (with_exam m exam1) request.
Proof.
  intros He Hn1 Hn2 H1 H2 Hd.
  rewrite (score_with_bonus_full_day fromisoformat now (with_exam m exam1)
             exam1 request d1 eq_refl Hn1 H1) by lia.
  rewrite (score_with_bonus_full_day fromisoformat now (with_exam m exam2)
             exam2 request d2 eq_refl Hn2 H2) by lia.
  unfold score_with_bonus, with_exam. simpl.
  set (D := inject_Z (difficulty m) * _ * 10).
  pose proof (bonus_antitone d1 d2 Hd) as Hb.
  pose proof (mood_multiplier_pos (mood request)) as Hm.
  pose proof (energy_factor_pos _ He) as Hf.
  destruct (progress m); apply scale_le; try done; lra.
Qed.

(** Every module scores 0 when the energy level is 0. *)
Lemma score_zero_energy now m request :
  energyLevel request = 0%Z →
  _calculate_module_score fromisoformat now m request == 0.
Proof.
  intros He. unfold _calculate_module_score. rewrite He.
  change (inject_Z 0 / 10) with (0 # 10). ring.
Qed.

Lemma score_nonneg now m request :
  (0 ≤ energyLevel request)%Z → (0 ≤ difficulty m)%Z →
  (∀ p, progress m = Some p → (p ≤ 100)%Z) →
  0 <= _calculate_module_score fromisoformat now m request.
Proof.
  intros He Hd Hp. unfold _calculate_module_score.
  set (w := if (7 <=? energyLevel request)%Z then _ else _).
  assert (0 <= w) as Hw.
  { unfold w. destruct (7 <=? _)%Z; [discriminate|].
    destruct (_ <=? 4)%Z; discriminate. }
  assert (0 <= 0 + inject_Z (difficulty m) * w * 10) as H1.
  { rewrite Zle_Qle in Hd. change (inject_Z 0) with 0 in Hd.
    assert (0 <= inject_Z (difficulty m) * w)
      by (by apply Qmult_le_0_compat).
    lra. }
  set (s1 := 0 + inject_Z (difficulty m) * w * 10) in *.
  set (s2 := if truthy (examDate m) then _ else s1).
  assert (0 <= s2) as H2.
  { unfold s2. destruct (truthy _); [|done].
    destruct (days_until_exam _ _ _) as [d|]; [|done].
    destruct (Z.ltb_spec 0 d) as [Hpos|]; [|done].
    assert (0 <= 100 / (1 + inject_Z d / 7)); [|lra].
    rewrite Zlt_Qlt in Hpos. change (inject_Z 0) with 0 in Hpos.
    apply Qle_shift_div_l; [|lra].
    unfold Qdiv. change (/ 7) with (1 # 7). lra. }
  clearbody s2.
  set (s3 := match progress m with Some p => _ | None => s2 end).
  assert (0 <= s3) as H3.
  { unfold s3. destruct (progress m) as [p|]; [|done].
    assert (0 <= inject_Z (100 - p)).
    { change 0 with (inject_Z 0). rewrite <- Zle_Qle.
      specialize (Hp p eq_refl). lia. }
    lra. }
  clearbody s3.
  apply Qmult_le_0_compat; [|by apply energy_factor_nonneg].
  apply Qmult_le_0_compat; [done|].
  apply Qlt_le_weak, mood_multiplier_pos.
Qed.

End ScoreFacts.

Section HeadOfSort.
Context {A : Type} (geb : A → A → bool).
Hypothesis geb_total : ∀ x y, geb x y = false → geb y x = true.
Hypothesis geb_trans :
  ∀ x y z, geb x y = true → geb y z = true → geb x z = true.

(** The head of the stable descending sort is the first element that no
    other element beats. *)
Lemma sort_desc_head l top rest :
  sort_desc geb l = top :: rest →
  ∃ l1 l2, l = l1 ++ top :: l2
           ∧ (∀ y, y ∈ l1 → geb y top = false)
           ∧ (∀ y, y ∈ l2 → geb top y = true).
Proof.
  revert top rest. induction l as [|x l IH]; intros top rest; simpl; [done|].
  destruct (sort_desc geb l) as [|t r] eqn:E; simpl.
  - intros [= <- <-]. exists [], l. split; [done|].
    assert (l = []) as ->.
    { apply Permutation_nil_r. rewrite <- E. by rewrite sort_desc_perm. }
    split; intros y Hy; by apply elem_of_nil in Hy.
  - destruct (IH t r eq_refl) as (l1 & l2 & -> & H1 & H2).
    destruct (geb x t) eqn:Ext.
    + intros [= <- <-]. exists [], (l1 ++ t :: l2). split; [done|].
      split; [intros y Hy; by apply elem_of_nil in Hy|].
      intros y Hy. apply elem_of_app in Hy as [Hy|Hy].
      * eapply geb_trans; [exact Ext|]. by apply geb_total, H1.
      * apply elem_of_cons in Hy as [->|Hy]; [done|].
        eapply geb_trans; [exact Ext|]. by apply H2.
    + intros [= <- <-]. exists (x :: l1), l2. split; [done|].
      split; [|done]. intros y Hy.
      apply elem_of_cons in Hy as [->|Hy]; [done|by apply H1].
Qed.

Lemma sort_desc_all_equal l :
  (∀ x y, x ∈ l → y ∈ l → geb x y = true) → sort_desc geb l = l.
Proof.
  induction l as [|x l IH]; intros Hl; simpl; [done|].
  rewrite IH.
  - destruct l as [|y l']; simpl; [done|].
    rewrite Hl; [done|apply list_elem_of_here|].
    apply list_elem_of_further, list_elem_of_here.
  - intros a b Ha Hb. apply Hl; by apply list_elem_of_further.
Qed.

End HeadOfSort.

Section DecisionFacts.
Import Scorer Samples Stated Variants.

Variable fromisoformat : string → option datetime.
Variable _generate_explanation :
  ModuleInput → string → Z → StudyDecisionRequest → Q → string.

Lemma by_score_total a b : by_score a b = false → by_score b a = true.
Proof.
  unfold by_score. intros H. apply Qle_bool_iff, Qlt_le_weak, Qnot_le_lt.
  intros Hle. apply Qle_bool_iff in Hle. congruence.
Qed.

Lemma by_score_trans a b c :
  by_score a b = true → by_score b c = true → by_score a c = true.
Proof.
  unfold by_score. rewrite !Qle_bool_iff. intros H1 H2.
  exact (Qle_trans _ _ _ H2 H1).
Qed.

(** X24.  The recommended module has the highest score of the request,
    and among modules with that score it is the first of the list:
    every module before it scores strictly less, none after it scores
    more. *)
Theorem recommended_module_is_first_best now request decision :
  get_recommendation fromisoformat _generate_explanation now request
    = Returns decision →
  ∃ before m after,
    modules request = before ++ m :: after
    ∧ rm_id (recommendedModule decision) = id m
    ∧ rm_name (recommendedModule decision) = name m
    ∧ (∀ m', m' ∈ before →
         _calculate_module_score fromisoformat now m' request
         < _calculate_module_score fromisoformat now m request)
    ∧ (∀ m', m' ∈ after →
         _calculate_module_score fromisoformat now m' request
         <= _calculate_module_score fromisoformat now m request).
Proof.
  unfold get_recommendation.
  set (scored := (λ m, (m, _calculate_module_score fromisoformat now m request))
                   <$> modules request).
  change (λ a b : ModuleInput * Q, Qle_bool a.2 b.2) with (λ a b, by_score b a).
  destruct (sort_desc _ scored) as [|top rest] eqn:E; [done|].
  intros [= <-]. simpl.
  apply (sort_desc_head by_score by_score_total by_score_trans) in E
    as (l1 & l2 & Hsplit & H1 & H2).
  unfold scored in Hsplit.
  apply fmap_app_inv in Hsplit as (before & tail & -> & Htail & Hmods).
  symmetry in Htail.
  apply fmap_cons_inv in Htail as (m & after & -> & -> & ->).
  exists before, m, after. split; [done|]. split; [done|]. split; [done|].
  split.
  - intros m' Hm'. apply Qnot_le_lt. intros Hle.
    assert (by_score (m', _calculate_module_score fromisoformat now m' request)
              (m, _calculate_module_score fromisoformat now m request) = false)
      as Hf by (apply H1, list_elem_of_fmap; by exists m').
    unfold by_score in Hf. simpl in Hf. apply Qle_bool_iff in Hle. congruence.
  - intros m' Hm'.
    assert (by_score (m, _calculate_module_score fromisoformat now m request)
              (m', _calculate_module_score fromisoformat now m' request) = true)
      as Ht by (apply H2, list_elem_of_fmap; by exists m').
    by apply Qle_bool_iff in Ht.
Qed.

(** X25.  With an energy level of 0 every module scores 0: the first
    module of the list is recommended, the activity is "flashcards" and,
    with two or more modules, the confidence is 0.5. *)
Theorem zero_energy_decision now request m1 m2 others :
  energyLevel request = 0%Z →
  modules request = m1 :: m2 :: others →
  ∃ decision,
    get_recommendation fromisoformat _generate_explanation now request
      = Returns decision
    ∧ rm_id (recommendedModule decision) = id m1
    ∧ recommendedActivity decision = "flashcards"%string
    ∧ confidence decision = 5 # 10.
Proof.
  intros He Hm. unfold get_recommendation.
  change (λ a b : ModuleInput * Q, Qle_bool a.2 b.2) with (λ a b, by_score b a).
  rewrite sort_desc_all_equal.
  2:{ intros a b Ha Hb.
      apply list_elem_of_fmap in Ha as (ma & -> & _).
      apply list_elem_of_fmap in Hb as (mb & -> & _).
      unfold by_score. simpl. apply Qle_bool_iff.
      by rewrite !score_zero_energy. }
  rewrite Hm. simpl. eexists. split; [reflexivity|]. simpl.
  split; [done|]. split; [by rewrite He|].
  assert (Qeq_bool (_calculate_module_score fromisoformat now m1 request) 0
          = true) as ->; [|done].
  by apply Qeq_bool_iff, score_zero_energy.
Qed.

(** The confidence of a ranking whose two best scores are not
    negative. *)
Lemma calculate_confidence_range m1 s1 m2 s2 rest :
  0 <= s2 → s2 <= s1 →
  1 # 2 <= _calculate_confidence ((m1, s1) :: (m2, s2) :: rest) <= 95 # 100.
Proof.
  intros H2 H12. unfold _calculate_confidence.
  destruct (Qeq_bool s1 0) eqn:E; [split; discriminate|].
  apply Qeq_bool_neq in E.
  assert (0 < s1) as Hpos.
  { destruct (Qlt_le_dec 0 s1); [done|]. exfalso. apply E. lra. }
  set (ratio := (s1 - s2) / s1).
  assert (0 <= ratio) as Hr0 by (apply Qle_shift_div_l; [done|lra]).
  assert (ratio <= 1) as Hr1 by (apply Qle_shift_div_r; [done|lra]).
  destruct (Qltb _ _) eqn:Ec; [|split; discriminate].
  apply Qltb_lt in Ec. split; lra.
Qed.

(** X26.  For a request with a non-negative energy level whose modules
    have a non-negative difficulty and a progress of at most 100, the
    confidence of the decision lies between 0.5 and 0.95; for a single
    module it is exactly 0.8. *)
Theorem confidence_range now request decision :
  (0 ≤ energyLevel request)%Z →
  (∀ m, m ∈ modules request →
        (0 ≤ difficulty m)%Z ∧ ∀ p, progress m = Some p → (p ≤ 100)%Z) →
  get_recommendation fromisoformat _generate_explanation now request
    = Returns decision →
  1 # 2 <= confidence decision <= 95 # 100
  ∧ (∀ m, modules request = [m] → confidence decision = 8 # 10).
Proof.
  intros He Hrange. unfold get_recommendation.
  set (scored := (λ m, (m, _calculate_module_score fromisoformat now m request))
                   <$> modules request).
  change (λ a b : ModuleInput * Q, Qle_bool a.2 b.2) with (λ a b, by_score b a).
  pose proof (sort_desc_sorted by_score by_score_total by_score_trans scored)
    as Hsorted.
  assert (∀ p, p ∈ sort_desc (λ b a, by_score b a) scored → 0 <= p.2) as Hpos.
  { intros p Hp. apply elem_of_sort_desc in Hp.
    apply list_elem_of_fmap in Hp as (m & -> & Hm). simpl.
    destruct (Hrange m Hm). by apply score_nonneg. }
  assert (length (sort_desc (λ b a, by_score b a) scored)
          = length (modules request)) as Hlen.
  { rewrite sort_desc_perm. unfold scored. by rewrite length_fmap. }
  destruct (sort_desc _ scored) as [|[m1 s1] [|[m2 s2] rest]]; [done| |];
    intros [= <-]; cbn [confidence].
  - change (_calculate_confidence [(m1, s1)]) with (8 # 10).
    split; [split; discriminate|done].
  - split.
    + apply (calculate_confidence_range m1 s1 m2 s2 rest).
      * apply (Hpos (m2, s2)), list_elem_of_further, list_elem_of_here.
      * apply StronglySorted_inv in Hsorted as [_ Hall].
        apply Forall_cons in Hall as [H12 _]. by apply Qle_bool_iff in H12.
    + intros m Hm. rewrite Hm in Hlen. simpl in Hlen. lia.
Qed.

(** X27.  The list of reasons is never empty; "Low progress" is given
    exactly for a progress below 50 and "High difficulty" exactly for a
    difficulty of at least 7; an exam reason is only given for an exam
    1 to 14 days ahead; and "Good time to review" stands alone, when
    nothing else applies. *)
Theorem reasons_shape now m :
  let rs := reasons fromisoformat now m in
  rs ≠ []
  ∧ ("Low progress"%string ∈ rs ↔ ∃ p, progress m = Some p ∧ (p < 50)%Z)
  ∧ ("High difficulty"%string ∈ rs ↔ (7 ≤ difficulty m)%Z)
  ∧ ("Good time to review"%string ∈ rs
     ↔ rs = ["Good time to review"%string])
  ∧ ∀ t, t ∈ rs →
      t = "Low progress"%string ∨ t = "High difficulty"%string
      ∨ t = "Good time to review"%string
      ∨ ∃ exam d, examDate m = Some exam
                  ∧ days_until_exam fromisoformat now exam = Some d
                  ∧ (0 < d ≤ 14)%Z
                  ∧ t = ("Exam in " ++ string_of_Z d ++ " days")%string.
Proof.
  cbv zeta. unfold reasons.
  set (exam := if truthy (examDate m) then _ else []).
  assert (exam = []
          ∨ ∃ e d, examDate m = Some e
                   ∧ days_until_exam fromisoformat now e = Some d
                   ∧ (0 < d ≤ 14)%Z
                   ∧ exam = [("Exam in " ++ string_of_Z d ++ " days")%string])
    as Hexam.
  { unfold exam. destruct (examDate m) as [e|]; simpl; [|by left].
    destruct (negb _); [|by left].
    destruct (days_until_exam fromisoformat now e) as [d|] eqn:Ed; [|by left].
    destruct (Z.ltb_spec 0 d), (Z.leb_spec d 14); simpl; try by left.
    right. exists e, d. repeat split; done || lia. }
  clearbody exam.
  destruct (progress m) as [p|]; [destruct (Z.ltb_spec p 50) as [Hp|Hp]|];
    destruct (Z.leb_spec 7 (difficulty m)) as [Hdf|Hdf];
    destruct Hexam as [->|(e & d & He & Hd & Hrange & ->)]; simpl;
    (split; [done|]);
    (split;
      [rewrite ?elem_of_cons, ?elem_of_nil; split;
         [intros H; repeat (destruct H as [H|H]);
          try (simpl in H; discriminate H); try done;
          try (eexists; split; [reflexivity|lia])
         |intros (q & Heq & Hq); try discriminate Heq;
          try (injection Heq as <-; lia);
          repeat first [left; reflexivity|right]]
      |]);
    (split;
      [rewrite ?elem_of_cons, ?elem_of_nil; split;
         [intros H; repeat (destruct H as [H|H]);
          try (simpl in H; discriminate H); try done; try lia
         |intros H; try lia; repeat first [left; reflexivity|right]]
      |]);
    (split;
      [rewrite ?elem_of_cons, ?elem_of_nil; split;
         [intros H; repeat (destruct H as [H|H]);
          try (simpl in H; discriminate H); try done
         |intros H; try (simpl in H; discriminate H);
          repeat first [left; reflexivity|right]]
      |]);
    intros t; rewrite ?elem_of_cons, ?elem_of_nil; intros Ht;
    repeat (destruct Ht as [Ht|Ht]); try done; subst t;
    try (left; reflexivity); try (right; left; reflexivity);
    try (right; right; left; reflexivity);
    do 3 right; exists e, d; done.
Qed.

End DecisionFacts.

Section DecisionRuns.
Import Scorer Samples Stated Variants.

Lemma score_antitone_in_progress_witness :
  ((0 < energyLevel (evening [exam_garbled]))%Z ∧ (20 ≤ 80)%Z)
  ∧ _calculate_module_score iso_parse new_year (with_progress exam_garbled 80)
      (evening [exam_garbled])
    <= _calculate_module_score iso_parse new_year
         (with_progress exam_garbled 20) (evening [exam_garbled]).
Proof.
  assert (0 < energyLevel (evening [exam_garbled]))%Z as He by (simpl; lia).
  assert (20 ≤ 80)%Z as Hp by lia.
  split; [done|].
  exact (score_antitone_in_progress iso_parse new_year exam_garbled
           (evening [exam_garbled]) 20 80 He Hp).
Defined.

Lemma score_antitone_in_exam_distance_witness :
  ((0 < energyLevel (evening [exam_garbled]))%Z
   ∧ days_until_exam iso_parse new_year "2025-01-03" = Some 2%Z
   ∧ days_until_exam iso_parse new_year "2025-01-10" = Some 9%Z
   ∧ (0 < 2 ≤ 9)%Z)
  ∧ _calculate_module_score iso_parse new_year
      (with_exam exam_garbled "2025-01-10") (evening [exam_garbled])
    <= _calculate_module_score iso_parse new_year
         (with_exam exam_garbled "2025-01-03") (evening [exam_garbled]).
Proof.
  assert (0 < energyLevel (evening [exam_garbled]))%Z as He by (simpl; lia).
  assert (0 < 2 ≤ 9)%Z as Hd by lia.
  assert ("2025-01-03"%string ≠ ""%string) as Hn1 by discriminate.
  assert ("2025-01-10"%string ≠ ""%string) as Hn2 by discriminate.
  split; [by repeat split|].
  exact (score_antitone_in_exam_distance iso_parse new_year exam_garbled
           (evening [exam_garbled]) "2025-01-03" "2025-01-10" 2 9
           He Hn1 Hn2 eq_refl eq_refl Hd).
Defined.

Lemma recommended_module_is_first_best_witness :
  ∃ decision,
    get_recommendation iso_parse fixed_explanation new_year
      (evening [exam_garbled; exam_at_noon]) = Returns decision
    ∧ ∃ before m after,
        [exam_garbled; exam_at_noon] = before ++ m :: after
        ∧ rm_id (recommendedModule decision) = id m
        ∧ rm_name (recommendedModule decision) = name m
        ∧ (∀ m', m' ∈ before →
             _calculate_module_score iso_parse new_year m'
               (evening [exam_garbled; exam_at_noon])
             < _calculate_module_score iso_parse new_year m
                 (evening [exam_garbled; exam_at_noon]))
        ∧ (∀ m', m' ∈ after →
             _calculate_module_score iso_parse new_year m'
               (evening [exam_garbled; exam_at_noon])
             <= _calculate_module_score iso_parse new_year m
                  (evening [exam_garbled; exam_at_noon])).
Proof.
  destruct (get_recommendation_returns iso_parse fixed_explanation new_year
              (evening [exam_garbled; exam_at_noon])) as [decision E];
    [done|].
  exists decision. split; [exact E|].
  exact (recommended_module_is_first_best iso_parse fixed_explanation new_year
           (evening [exam_garbled; exam_at_noon]) decision E).
Defined.

Lemma zero_energy_decision_witness :
  let request := mkRequest "high" 0 90 [exam_garbled; exam_at_noon] in
  (energyLevel request = 0%Z
   ∧ modules request = exam_garbled :: exam_at_noon :: [])
  ∧ ∃ decision,
      get_recommendation iso_parse fixed_explanation new_year request
        = Returns decision
      ∧ rm_id (recommendedModule decision) = id exam_garbled
      ∧ recommendedActivity decision = "flashcards"%string
      ∧ confidence decision = 5 # 10.
Proof.
  intros request. split; [done|].
  exact (zero_energy_decision iso_parse fixed_explanation new_year request
           exam_garbled exam_at_noon [] eq_refl eq_refl).
Defined.

Lemma confidence_range_witness :
  let request := evening [exam_garbled; exam_at_noon] in
  ((0 ≤ energyLevel request)%Z
   ∧ ∀ m, m ∈ modules request →
          (0 ≤ difficulty m)%Z ∧ ∀ p, progress m = Some p → (p ≤ 100)%Z)
  ∧ ∃ decision,
      get_recommendation iso_parse fixed_explanation new_year request
        = Returns decision
      ∧ 1 # 2 <= confidence decision <= 95 # 100.
Proof.
  intros request.
  assert (0 ≤ energyLevel request)%Z as He by (simpl; lia).
  assert (∀ m, m ∈ modules request →
            (0 ≤ difficulty m)%Z ∧ ∀ p, progress m = Some p → (p ≤ 100)%Z)
    as Hrange.
  { intros m Hm. simpl in Hm.
    apply elem_of_cons in Hm as [->|Hm];
      [|apply elem_of_cons in Hm as [->|Hm]; [|by apply elem_of_nil in Hm]];
      simpl; (split; [lia|intros p [= <-]; lia]). }
  split; [done|].
  destruct (get_recommendation_returns iso_parse fixed_explanation new_year
              request) as [decision E]; [done|].
  exists decision. split; [exact E|].
  exact (proj1 (confidence_range iso_parse fixed_explanation new_year request
                  decision He Hrange E)).
Defined.

End DecisionRuns.
